(** * Clarity PPM portfolio health: the mock API server and the analyzer

    A shallow embedding of [Clarity_api_server.py] (the Data Provider) and of
    [Claude_desktop_automation.py] (the Health Assessment Engine), with the
    properties of the threshold rules, of the concern and recommendation
    lists and of the sample data.

    Numbers.  JSON numbers reach the Python code as [int] or as finite
    [float].  Counts, day counts and money amounts, which the sample data
    gives as integers, are [Z]; percentages, which it gives as decimal
    literals, are [Q], a decimal literal standing for its decimal value.
    A float is the rational it denotes.  Comparisons against the integer
    thresholds are exact in Python, so they are the comparisons of [Q] and
    [Z].  A quotient, a product by 100 and a [round] are rounded to the
    nearest double, ties to even, as the machine does ([Py.fl]); the sum of
    a list of floats is taken exactly.  The non-finite floats (NaN,
    infinities) and the negative zero are outside [Q], and magnitudes are
    taken to stay within the range of a double, so that no operation
    overflows.  Where a function takes a number that may be either an [int]
    or a [float] and prints it, the number is a [Py.number].

    Dictionaries with a fixed set of keys are records; a key that two
    dictionaries of one module share is qualified in the second one
    ([risks_total], [timeline_recommendation]). *)

From Stdlib Require Import ZArith QArith Qabs List Sorted Bool Lia Lqa.
From Stdlib Require Import Strings.String Strings.Ascii Numbers.DecimalString.
Import ListNotations.

Open Scope string_scope.
Open Scope Z_scope.

(** ** Python built-ins used by both programs *)

Module Py.

(** The only exception the modelled code can raise: a quotient by zero. *)
Inductive exn : Type :=
| ZeroDivisionError.

(** [str(n)] and the f-string field [{n}] for an [int]. *)
Definition str (n : Z) : string :=
  NilZero.string_of_int (Z.to_int n).

(** [len(l)] *)
Definition len {A : Type} (l : list A) : Z :=
  Z.of_nat (List.length l).

(** [sep.join(l)] *)
Fixpoint join (sep : string) (l : list string) : string :=
  match l with
  | [] => ""
  | [s] => s
  | s :: rest => s ++ sep ++ join sep rest
  end.

(** [x < y] and [x > y] on numbers *)
Definition Qltb (x y : Q) : bool :=
  (Qnum x * QDen y <? Qnum y * QDen x)%Z.

Definition Qgtb (x y : Q) : bool := Qltb y x.

(** Rounding of a rational to the nearest integer, ties to the even one:
    what [round] and the [.nf] format do with the exact value. *)
Definition round_half_even (x : Q) : Z :=
  let a := Qnum x in
  let b := QDen x in
  let f := a / b in
  let r := a mod b in
  match 2 * r ?= b with
  | Lt => f
  | Gt => f + 1
  | Eq => if Z.even f then f else f + 1
  end.

(** [a / b] divided by [2 ^ k] *)
Definition scale2 (a b : positive) (k : Z) : Q :=
  if 0 <=? k then Zpos a # (b * Z.to_pos (2 ^ k))
  else (Zpos a * 2 ^ (- k)) # b.

(** The integer [e] with [2 ^ e <= a / b < 2 ^ (e + 1)]. *)
Definition ilog2 (a b : positive) : Z :=
  let k := Z.log2 (Zpos a) - Z.log2 (Zpos b) in
  if 1 <=? Qnum (scale2 a b k) / QDen (scale2 a b k) then k else k - 1.

(** The double nearest to [a / b], ties to the even significand: 53 bits
    from the leading one, or the multiples of [2 ^ -1074] below the normal
    range. *)
Definition fl_pos (a b : positive) : Q :=
  let q := Z.max (ilog2 a b - 52) (-1074) in
  let m := round_half_even (scale2 a b q) in
  if 0 <=? q then inject_Z (m * 2 ^ q) else Qred (m # Z.to_pos (2 ^ (- q))).

(** The double nearest to [x]: the result of a float operation whose exact
    result is [x]. *)
Definition fl (x : Q) : Q :=
  match Qnum x with
  | Z0 => 0%Q
  | Zpos a => fl_pos a (Qden x)
  | Zneg a => (- fl_pos a (Qden x))%Q
  end.

(** [x * y] on floats, or on a float and an [int]. *)
Definition fmul (x y : Q) : Q := fl (x * y).

(** [round(x, n)] *)
Definition round (x : Q) (n : nat) : Q :=
  let p := 10 ^ Z.of_nat n in
  fl (inject_Z (round_half_even (x * inject_Z p)) / inject_Z p).

(** The format field [{x:.1f}]: one digit after the point, the sign kept
    even when the rounded magnitude is zero. *)
Definition fmt_1f (x : Q) : string :=
  let n := round_half_even (Qabs x * 10) in
  (if Qltb x 0 then "-" else "") ++ str (n / 10) ++ "." ++ str (n mod 10).

(** [sum(l)] over integers and over rationals *)
Definition sumZ (l : list Z) : Z := fold_left Z.add l 0.
Definition sumQ (l : list Q) : Q := fold_left Qplus l 0%Q.

(** True division [x / y], of two [int]s or of a float by an [int]: the
    double nearest to the quotient.  A quotient of [int]s beyond the range
    of a double, where Python raises [OverflowError], is outside the
    magnitudes considered. *)
Definition truediv (x y : Q) : exn + Q :=
  if Qeq_bool y 0 then inl ZeroDivisionError else inr (fl (x / y)).

(** [s * n] on a string *)
Fixpoint repeat (s : string) (n : nat) : string :=
  match n with
  | O => ""
  | S k => s ++ repeat s k
  end.

(** The line feed of ["\n"]. *)
Definition nl : string := String (Ascii.ascii_of_nat 10) "".

(** The characters [str.strip()] removes, among the single bytes. *)
Definition isspace (c : ascii) : bool :=
  let n := Ascii.nat_of_ascii c in
  ((9 <=? n) && (n <=? 13) || (28 <=? n) && (n <=? 32))%nat.

Fixpoint lstrip (s : string) : string :=
  match s with
  | EmptyString => EmptyString
  | String c rest => if isspace c then lstrip rest else s
  end.

(** The string without its trailing white space. *)
Fixpoint rstrip (s : string) : string :=
  match s with
  | EmptyString => EmptyString
  | String c rest =>
      match rstrip rest with
      | EmptyString => if isspace c then EmptyString else String c EmptyString
      | kept => String c kept
      end
  end.

(** [s.strip()] *)
Definition strip (s : string) : string := rstrip (lstrip s).

(** The thousands separators of the [,] format option, over the digits of
    a natural number taken from the right. *)
Fixpoint group3_rev (digits : list ascii) (k : nat) : list ascii :=
  match digits with
  | [] => []
  | c :: rest =>
      match k, rest with
      | S (S O), _ :: _ => c :: ","%char :: group3_rev rest O
      | _, _ => c :: group3_rev rest (S k)
      end
  end.

Definition group3 (s : string) : string :=
  string_of_list_ascii
    (List.rev (group3_rev (List.rev (list_ascii_of_string s)) O)).

(** A number whose text depends on its type: [12] or [12.0]. *)
Inductive number : Type :=
| Int (n : Z)
| Float (x : Q).

Definition value (a : number) : Q :=
  match a with
  | Int n => inject_Z n
  | Float x => x
  end.

(** [abs(a)] *)
Definition abs (a : number) : number :=
  match a with
  | Int n => Int (Z.abs n)
  | Float x => Float (Qabs x)
  end.

(** [x * 10 ^ k] *)
Definition scale10 (x : Q) (k : Z) : Q :=
  if 0 <=? k then (x * inject_Z (10 ^ k))%Q else (x / inject_Z (10 ^ (- k)))%Q.

Definition floor (x : Q) : Z := Qnum x / QDen x.

(** For [0 < x < 1], the least [k] with [1 <= x * 10 ^ k], among the first
    [fuel] ones from [k]. *)
Fixpoint first_digit_at (x : Q) (k : Z) (fuel : nat) : Z :=
  match fuel with
  | O => k
  | S fuel' =>
      if 1 <=? floor (scale10 x k) then k else first_digit_at x (k + 1) fuel'
  end.

(** The position of the decimal point of [x > 0]: the [p] with
    [10 ^ (p - 1) <= x < 10 ^ p].  The least positive double is above
    [10 ^ -324]. *)
Definition decimal_point (x : Q) : Z :=
  if 1 <=? floor x
  then Z.of_nat (String.length (str (floor x)))
  else 1 - first_digit_at x 1 400.

Fixpoint rstrip_zeros (s : string) : string :=
  match s with
  | EmptyString => EmptyString
  | String c rest =>
      match rstrip_zeros rest with
      | EmptyString => if Ascii.eqb c "0" then EmptyString else String c EmptyString
      | kept => String c kept
      end
  end.

(** The decimals of [n] digits next to [x], below and above, that read
    back as [x], the nearer one first. *)
Definition candidates (x : Q) (p : Z) (n : Z) : list Z :=
  let lo := floor (scale10 x (n - p)) in
  let back := fun d => Qeq_bool (fl (scale10 (inject_Z d) (p - n))) x in
  let err := fun d => Qabs (scale10 (inject_Z d) (p - n) - x) in
  let near := if Qle_bool (err lo) (err (lo + 1)) then [lo; lo + 1] else [lo + 1; lo] in
  filter back near.

(** The shortest digits that read back as [x], with the exponent of their
    last digit; 17 digits always do for a double. *)
Fixpoint shortest (x : Q) (p : Z) (n : Z) (fuel : nat) : Z * Z :=
  match fuel with
  | O => (floor (scale10 x (n - p)), p - n)
  | S fuel' =>
      match candidates x p n with
      | d :: _ => (d, p - n)
      | [] => shortest x p (n + 1) fuel'
      end
  end.

(** [repr(x)] for a positive double: the shortest digits, in positional
    notation when the decimal point is at one of the positions -3 to 16 and
    with an exponent otherwise. *)
Definition repr_pos (x : Q) : string :=
  let '(d, e) := shortest x (decimal_point x) 1 17 in
  let all := str d in
  let point := e + Z.of_nat (String.length all) in
  let digits := rstrip_zeros all in
  let len := Z.of_nat (String.length digits) in
  if (-4 <? point) && (point <=? 16) then
    if point <=? 0 then "0." ++ repeat "0" (Z.to_nat (- point)) ++ digits
    else if len <=? point then digits ++ repeat "0" (Z.to_nat (point - len)) ++ ".0"
    else substring 0 (Z.to_nat point) digits ++ "."
           ++ substring (Z.to_nat point) (Z.to_nat (len - point)) digits
  else
    let exponent := point - 1 in
    substring 0 1 digits
      ++ (if 1 <? len then "." ++ substring 1 (Z.to_nat (len - 1)) digits else "")
      ++ "e" ++ (if exponent <? 0 then "-" else "+")
      ++ (if Z.abs exponent <? 10 then "0" else "") ++ str (Z.abs exponent).

(** [repr(x)], which is [str(x)] and the field [{x}], for a finite double. *)
Definition repr_float (x : Q) : string :=
  match Qnum x with
  | Z0 => "0.0"
  | Zpos _ => repr_pos x
  | Zneg _ => "-" ++ repr_pos (Qabs x)
  end.

(** [str(a)] and the field [{a}] for a number. *)
Definition str_of (a : number) : string :=
  match a with
  | Int n => str n
  | Float x => repr_float x
  end.

(** The format field [{x:.0f}]: no digit after the point. *)
Definition fmt_0f (x : Q) : string :=
  (if Qltb x 0 then "-" else "") ++ str (round_half_even (Qabs x)).

(** The format field [{x:,.0f}] *)
Definition fmt_comma_0f (x : Q) : string :=
  (if Qltb x 0 then "-" else "") ++ group3 (str (round_half_even (Qabs x))).

End Py.

(** ** The label in front of a narrative *)

(** The characters of [s] before its first colon: the tier of an assessment
    such as ["WARNING: Scope variance of ..."]. *)
Fixpoint tier (s : string) : string :=
  match s with
  | EmptyString => EmptyString
  | String c rest => if Ascii.eqb c ":" then EmptyString else String c (tier rest)
  end.

(** ** The project records: the data model of [PROJECTS_DATA] *)

Module Clarity.

(** [p['budget']] *)
Record Budget : Type := mkBudget {
  total : Z;
  spent : Z;
  remaining : Z;
  variance : Z;
  variance_percentage : Q
}.

(** [p['schedule']] *)
Record Schedule : Type := mkSchedule {
  planned_duration_days : Z;
  actual_duration_days : Z;
  percent_complete : Z;
  variance_days : Z;
  milestone_completion : string
}.

(** [p['scope']] *)
Record Scope : Type := mkScope {
  original_scope_items : Z;
  completed_items : Z;
  in_progress_items : Z;
  pending_items : Z;
  scope_changes : Z;
  scope_variance_percentage : Q
}.

(** [p['health']] *)
Record Health : Type := mkHealth {
  overall_status : string;
  scope_status : string;
  budget_status : string;
  schedule_status : string;
  health_score : Z
}.

(** [p['risks']]; its key ["total"] is the field [risks_total]. *)
Record Risks : Type := mkRisks {
  risks_total : Z;
  critical : Z;
  high : Z;
  medium : Z;
  low : Z
}.

(** [p['team']] *)
Record Team : Type := mkTeam {
  size : Z;
  utilization : Z
}.

(** One element of [PROJECTS_DATA]. *)
Record Project : Type := mkProject {
  id : string;
  name : string;
  code : string;
  manager : string;
  sponsor : string;
  department : string;
  priority : string;
  start_date : string;
  planned_end_date : string;
  current_end_date : string;
  budget : Budget;
  schedule : Schedule;
  scope : Scope;
  health : Health;
  risks : Risks;
  team : Team
}.

End Clarity.

(** ** Clarity_api_server.py *)

Module Clarity_api_server.
Import Clarity.

Definition PRJ001 : Project := {|
  id := "PRJ001";
  name := "Digital Transformation Initiative";
  code := "DTI-2024";
  manager := "John Smith";
  sponsor := "Sarah Williams";
  department := "IT";
  priority := "High";
  start_date := "2024-01-15";
  planned_end_date := "2025-06-30";
  current_end_date := "2025-07-12";
  budget := {| total := 750000; spent := 625000; remaining := 125000;
               variance := -30000; variance_percentage := -4 |};
  schedule := {| planned_duration_days := 532; actual_duration_days := 544;
                 percent_complete := 68; variance_days := -12;
                 milestone_completion := "8/12" |};
  scope := {| original_scope_items := 45; completed_items := 28;
              in_progress_items := 12; pending_items := 5;
              scope_changes := 3; scope_variance_percentage := 67 # 10 |};
  health := {| overall_status := "At Risk"; scope_status := "Yellow";
               budget_status := "Red"; schedule_status := "Yellow";
               health_score := 65 |};
  risks := {| risks_total := 5; critical := 2; high := 1; medium := 1; low := 1 |};
  team := {| size := 15; utilization := 85 |}
|}.

Definition PRJ002 : Project := {|
  id := "PRJ002";
  name := "Cloud Migration Project";
  code := "CMP-2024";
  manager := "Michael Chen";
  sponsor := "David Brown";
  department := "Infrastructure";
  priority := "High";
  start_date := "2024-03-01";
  planned_end_date := "2025-03-31";
  current_end_date := "2025-03-28";
  budget := {| total := 450000; spent := 280000; remaining := 170000;
               variance := 15000; variance_percentage := 33 # 10 |};
  schedule := {| planned_duration_days := 365; actual_duration_days := 362;
                 percent_complete := 72; variance_days := 3;
                 milestone_completion := "6/8" |};
  scope := {| original_scope_items := 32; completed_items := 23;
              in_progress_items := 7; pending_items := 2;
              scope_changes := 1; scope_variance_percentage := 31 # 10 |};
  health := {| overall_status := "On Track"; scope_status := "Green";
               budget_status := "Green"; schedule_status := "Green";
               health_score := 88 |};
  risks := {| risks_total := 2; critical := 0; high := 0; medium := 1; low := 1 |};
  team := {| size := 12; utilization := 78 |}
|}.

Definition PRJ003 : Project := {|
  id := "PRJ003";
  name := "Customer Portal Redesign";
  code := "CPR-2024";
  manager := "Emily Rodriguez";
  sponsor := "Robert Taylor";
  department := "Marketing";
  priority := "Critical";
  start_date := "2024-02-01";
  planned_end_date := "2024-11-30";
  current_end_date := "2024-12-25";
  budget := {| total := 320000; spent := 305000; remaining := 15000;
               variance := -20000; variance_percentage := -625 # 100 |};
  schedule := {| planned_duration_days := 303; actual_duration_days := 328;
                 percent_complete := 85; variance_days := -25;
                 milestone_completion := "8/10" |};
  scope := {| original_scope_items := 28; completed_items := 22;
              in_progress_items := 4; pending_items := 7;
              scope_changes := 5; scope_variance_percentage := 179 # 10 |};
  health := {| overall_status := "Critical"; scope_status := "Red";
               budget_status := "Red"; schedule_status := "Red";
               health_score := 42 |};
  risks := {| risks_total := 8; critical := 4; high := 2; medium := 1; low := 1 |};
  team := {| size := 10; utilization := 95 |}
|}.

Definition PRJ004 : Project := {|
  id := "PRJ004";
  name := "Data Warehouse Modernization";
  code := "DWM-2024";
  manager := "James Wilson";
  sponsor := "Linda Martinez";
  department := "Data Analytics";
  priority := "Medium";
  start_date := "2024-04-15";
  planned_end_date := "2025-08-15";
  current_end_date := "2025-08-15";
  budget := {| total := 580000; spent := 385000; remaining := 195000;
               variance := 15000; variance_percentage := 26 # 10 |};
  schedule := {| planned_duration_days := 488; actual_duration_days := 488;
                 percent_complete := 55; variance_days := 0;
                 milestone_completion := "8/15" |};
  scope := {| original_scope_items := 52; completed_items := 28;
              in_progress_items := 18; pending_items := 6;
              scope_changes := 2; scope_variance_percentage := 38 # 10 |};
  health := {| overall_status := "On Track"; scope_status := "Green";
               budget_status := "Green"; schedule_status := "Green";
               health_score := 92 |};
  risks := {| risks_total := 3; critical := 1; high := 0; medium := 1; low := 1 |};
  team := {| size := 18; utilization := 68 |}
|}.

Definition PRJ005 : Project := {|
  id := "PRJ005";
  name := "Mobile App Development";
  code := "MAD-2024";
  manager := "Amanda Lee";
  sponsor := "Thomas Anderson";
  department := "Product";
  priority := "High";
  start_date := "2024-05-01";
  planned_end_date := "2025-02-28";
  current_end_date := "2025-03-08";
  budget := {| total := 420000; spent := 310000; remaining := 110000;
               variance := -5000; variance_percentage := -12 # 10 |};
  schedule := {| planned_duration_days := 304; actual_duration_days := 312;
                 percent_complete := 62; variance_days := -8;
                 milestone_completion := "5/9" |};
  scope := {| original_scope_items := 38; completed_items := 23;
              in_progress_items := 11; pending_items := 8;
              scope_changes := 4; scope_variance_percentage := 105 # 10 |};
  health := {| overall_status := "At Risk"; scope_status := "Yellow";
               budget_status := "Yellow"; schedule_status := "Yellow";
               health_score := 58 |};
  risks := {| risks_total := 4; critical := 1; high := 1; medium := 1; low := 1 |};
  team := {| size := 14; utilization := 82 |}
|}.

(** The module-level list the routes read. *)
Definition PROJECTS_DATA : list Project :=
  [PRJ001; PRJ002; PRJ003; PRJ004; PRJ005].

(** The error monad of the routes: a route either raises or returns. *)
Definition bind {A B : Type} (m : Py.exn + A) (k : A -> Py.exn + B) : Py.exn + B :=
  match m with
  | inl e => inl e
  | inr a => k a
  end.

Notation "x <- m ;; k" := (bind m (fun x => k))
  (at level 61, m at next level, right associativity).

(** The ["data"] object of [/api/portfolio/health]. *)
Module Portfolio.
Record ScopeMetrics : Type := mkScopeMetrics {
  projects_with_variance : Z;
  average_variance : Q
}.
Record BudgetMetrics : Type := mkBudgetMetrics {
  projects_over_budget : Z;
  total_variance : Z;
  average_variance_percentage : Q
}.
Record ScheduleMetrics : Type := mkScheduleMetrics {
  projects_behind : Z;
  average_variance_days : Q
}.
Record Health : Type := mkHealth {
  scope : ScopeMetrics;
  budget : BudgetMetrics;
  schedule : ScheduleMetrics
}.
End Portfolio.

(** The ["data"] object of [/api/portfolio/summary]. *)
Module Summary.
Record BudgetTotals : Type := mkBudgetTotals {
  total : Z;
  spent : Z;
  remaining : Z;
  utilization_percentage : Q
}.
Record StatusDistribution : Type := mkStatusDistribution {
  on_track : Z;
  at_risk : Z;
  critical : Z
}.
Record t : Type := mk {
  total_projects : Z;
  budget : BudgetTotals;
  status_distribution : StatusDistribution;
  average_health_score : Q;
  average_completion : Q;
  total_risks : Z;
  critical_risks : Z
}.
End Summary.

Record summary_body : Type := mkSummaryBody {
  summary_success : bool;
  summary_timestamp : string;
  summary_data : Summary.t
}.

(** A JSON body with its HTTP status.  [jsonify(...)] alone answers 200. *)
Inductive project_body : Type :=
| body_project (success : bool) (timestamp : string) (data : Project)
| body_error (success : bool) (error : string).

Record projects_body : Type := mkProjectsBody {
  projects_success : bool;
  projects_total : Z;
  projects_timestamp : string;
  projects_data : list Project
}.

Record health_body : Type := mkHealthBody {
  health_success : bool;
  health_timestamp : string;
  health_data : Portfolio.Health
}.

(** The routes read the module-level list.  They are written over any list
    [DATA] standing for it, and over [now], the text of
    [datetime.now().isoformat()] at the time of the request; the running
    server is the instance [DATA := PROJECTS_DATA]. *)
Section Routes.
Variable DATA : list Project.
Variable now : string.

(** [GET /api/projects] *)
Definition get_projects : projects_body * Z :=
  ({| projects_success := true;
      projects_total := Py.len DATA;
      projects_timestamp := now;
      projects_data := DATA |}, 200).

(** [GET /api/projects/<project_id>].  [next(..., None)] is the first
    element with the given id; a project record is a non-empty dict, so
    [if project:] holds exactly when one was found. *)
Definition get_project (project_id : string) : project_body * Z :=
  let project := find (fun p => id p =? project_id)%string DATA in
  match project with
  | Some p => (body_project true now p, 200)
  | None => (body_error false "Project not found", 404)
  end.

(** [GET /api/portfolio/health].  The three averages divide by
    [len(PROJECTS_DATA)]. *)
Definition get_portfolio_health : Py.exn + (health_body * Z) :=
  let projects_over_budget :=
    Py.len (filter (fun p => variance (budget p) <? 0) DATA) in
  let projects_behind_schedule :=
    Py.len (filter (fun p => variance_days (schedule p) <? 0) DATA) in
  let projects_scope_variance :=
    Py.len (filter (fun p => Py.Qgtb (scope_variance_percentage (scope p)) 5) DATA) in
  let n := inject_Z (Py.len DATA) in
  avg_scope <-
    Py.truediv (Py.sumQ (map (fun p => scope_variance_percentage (scope p)) DATA)) n ;;
  avg_budget <-
    Py.truediv (Py.sumQ (map (fun p => variance_percentage (budget p)) DATA)) n ;;
  avg_days <-
    Py.truediv (inject_Z (Py.sumZ (map (fun p => variance_days (schedule p)) DATA))) n ;;
  inr ({| health_success := true;
          health_timestamp := now;
          health_data := {|
            Portfolio.scope := {|
              Portfolio.projects_with_variance := projects_scope_variance;
              Portfolio.average_variance := Py.round avg_scope 2 |};
            Portfolio.budget := {|
              Portfolio.projects_over_budget := projects_over_budget;
              Portfolio.total_variance :=
                Py.sumZ (map (fun p => variance (budget p)) DATA);
              Portfolio.average_variance_percentage := Py.round avg_budget 2 |};
            Portfolio.schedule := {|
              Portfolio.projects_behind := projects_behind_schedule;
              Portfolio.average_variance_days := Py.round avg_days 1 |}
          |} |}, 200).

(** [GET /api/portfolio/summary].  The two averages divide by
    [len(PROJECTS_DATA)], the utilization by the total budget. *)
Definition get_portfolio_summary : Py.exn + (summary_body * Z) :=
  let total_budget := Py.sumZ (map (fun p => total (budget p)) DATA) in
  let total_spent := Py.sumZ (map (fun p => spent (budget p)) DATA) in
  let on_track :=
    Py.len (filter (fun p => overall_status (health p) =? "On Track")%string DATA) in
  let at_risk :=
    Py.len (filter (fun p => overall_status (health p) =? "At Risk")%string DATA) in
  let critical :=
    Py.len (filter (fun p => overall_status (health p) =? "Critical")%string DATA) in
  avg_health <-
    Py.truediv (inject_Z (Py.sumZ (map (fun p => health_score (health p)) DATA)))
               (inject_Z (Py.len DATA)) ;;
  avg_completion <-
    Py.truediv (inject_Z (Py.sumZ (map (fun p => percent_complete (schedule p)) DATA)))
               (inject_Z (Py.len DATA)) ;;
  ratio <- Py.truediv (inject_Z total_spent) (inject_Z total_budget) ;;
  inr ({| summary_success := true;
          summary_timestamp := now;
          summary_data := {|
            Summary.total_projects := Py.len DATA;
            Summary.budget := {|
              Summary.total := total_budget;
              Summary.spent := total_spent;
              Summary.remaining := total_budget - total_spent;
              Summary.utilization_percentage := Py.fmul ratio 100 |};
            Summary.status_distribution := {|
              Summary.on_track := on_track;
              Summary.at_risk := at_risk;
              Summary.critical := critical |};
            Summary.average_health_score := Py.round avg_health 1;
            Summary.average_completion := Py.round avg_completion 1;
            Summary.total_risks := Py.sumZ (map (fun p => risks_total (risks p)) DATA);
            Summary.critical_risks :=
              Py.sumZ (map (fun p => Clarity.critical (risks p)) DATA)
          |} |}, 200).

End Routes.

End Clarity_api_server.

(** ** Claude_desktop_automation.py *)

Module Claude_desktop_automation.
Import Clarity.
Module Portfolio := Clarity_api_server.Portfolio.

(** The fields of [ClarityPPMAnalyzer] that the analysis below reads:
    [self.projects] and [self.portfolio_health], as [fetch_data] stored
    them.  ([self.portfolio_summary] is read by the executive summary and
    the budget analysis only.) *)
Record ClarityPPMAnalyzer : Type := mkAnalyzer {
  projects : list Project;
  portfolio_health : Portfolio.Health
}.

(** An entry of the ["key_concerns"] list. *)
Record Concern : Type := mkConcern {
  severity : string;
  concern : string;
  details : string;
  action : string
}.

(** An entry of the ["recommendations"] list. *)
Record Recommendation : Type := mkRecommendation {
  priority : Z;
  recommendation : string;
  rationale : string;
  actions : list string;
  timeline : string
}.

(** The result of [_analyze_portfolio_timeline]; its key ["recommendation"]
    is the field [timeline_recommendation]. *)
Record TimelineAnalysis : Type := mkTimelineAnalysis {
  summary : string;
  projects_behind : Z;
  average_variance_days : Q;
  projects_with_issues : list string;
  timeline_recommendation : string
}.

(** *** The per-project dimension assessors *)

Definition _assess_scope (variance : Q) (changes : Z) : string :=
  if Py.Qgtb variance 15 then
    "CRITICAL: Scope has grown " ++ Py.fmt_1f variance ++ "% with "
      ++ Py.str changes ++ " change requests. Significant scope creep detected."
  else if Py.Qgtb variance 5 then
    "WARNING: Scope variance of " ++ Py.fmt_1f variance ++ "% with "
      ++ Py.str changes ++ " changes. Monitor closely to prevent further creep."
  else
    "HEALTHY: Scope is well-controlled with only " ++ Py.fmt_1f variance
      ++ "% variance.".

(** The utilization is computed before the branches, so a zero [total]
    raises whatever the variance is. *)
Definition _assess_budget (variance_pct : Q) (spent total : Z) : Py.exn + string :=
  match Py.truediv (inject_Z spent) (inject_Z total) with
  | inl e => inl e
  | inr ratio =>
      let utilization := Py.fmul ratio 100 in
      if Py.Qltb variance_pct (-5) then
        inr ("CRITICAL: Project is " ++ Py.fmt_1f (Qabs variance_pct)
               ++ "% over budget. Immediate cost control required.")
      else if Py.Qltb variance_pct 0 then
        inr ("WARNING: Project trending " ++ Py.fmt_1f (Qabs variance_pct)
               ++ "% over budget at " ++ Py.fmt_1f utilization ++ "% utilization.")
      else
        inr ("HEALTHY: Budget on track with " ++ Py.fmt_1f variance_pct
               ++ "% positive variance.")
  end.

(** The day count and the completion are printed as they are, so an
    [int] and a float of the same value give different texts. *)
Definition _assess_timeline (variance_days completion : Py.number) : string :=
  if Py.Qltb (Py.value variance_days) (-20) then
    "CRITICAL: Project is " ++ Py.str_of (Py.abs variance_days)
      ++ " days behind schedule at " ++ Py.str_of completion ++ "% completion."
  else if Py.Qltb (Py.value variance_days) (-5) then
    "WARNING: Project is " ++ Py.str_of (Py.abs variance_days)
      ++ " days behind with " ++ Py.str_of completion ++ "% complete."
  else if Py.Qgtb (Py.value variance_days) 5 then
    "AHEAD: Project is " ++ Py.str_of variance_days ++ " days ahead of schedule."
  else
    "ON TRACK: Project is on schedule with " ++ Py.str_of completion ++ "% completion.".

(** *** The portfolio level *)

Definition is_critical (p : Project) : bool :=
  (overall_status (health p) =? "Critical")%string.

Definition is_at_risk (p : Project) : bool :=
  (overall_status (health p) =? "At Risk")%string.

(** The two comprehensions of [generate_insights]. *)
Definition critical_projects (self : ClarityPPMAnalyzer) : list Project :=
  filter is_critical (projects self).

Definition at_risk_projects (self : ClarityPPMAnalyzer) : list Project :=
  filter is_at_risk (projects self).

(** [if l:] on a list *)
Definition truthy {A : Type} (l : list A) : bool :=
  match l with
  | [] => false
  | _ :: _ => true
  end.

Definition _identify_key_concerns (self : ClarityPPMAnalyzer)
    (critical at_risk : list Project) : list Concern :=
  let concerns : list Concern := [] in
  let concerns :=
    if truthy critical then
      (concerns ++ [{|
        severity := "Critical";
        concern := Py.str (Py.len critical)
                     ++ " Critical Projects Requiring Immediate Attention";
        details := "Projects in critical status: "
                     ++ Py.join ", " (map name critical);
        action := "Executive review and intervention required within 48 hours" |}])%list
    else concerns in
  let concerns :=
    if truthy at_risk then
      (concerns ++ [{|
        severity := "High";
        concern := Py.str (Py.len at_risk) ++ " Projects At Risk";
        details := "At-risk projects: " ++ Py.join ", " (map name at_risk);
        action := "Enhanced monitoring and corrective action plans needed" |}])%list
    else concerns in
  let budget_issues :=
    filter (fun p => variance (budget p) <? -10000) (projects self) in
  let concerns :=
    if truthy budget_issues then
      (concerns ++ [{|
        severity := "High";
        concern := "Significant Budget Overruns";
        details := Py.str (Py.len budget_issues)
                     ++ " projects with budget variance exceeding $10K";
        action := "Financial review and budget reforecast required" |}])%list
    else concerns in
  concerns.

Definition _analyze_portfolio_timeline (self : ClarityPPMAnalyzer) : TimelineAnalysis :=
  let behind_schedule :=
    filter (fun p => variance_days (schedule p) <? -5) (projects self) in
  let avg_variance :=
    Portfolio.average_variance_days (Portfolio.schedule (portfolio_health self)) in
  {| summary := Py.str (Py.len behind_schedule)
                  ++ " projects significantly behind schedule (>5 days)";
     projects_behind := Py.len behind_schedule;
     average_variance_days := avg_variance;
     projects_with_issues := map name behind_schedule;
     timeline_recommendation :=
       if Py.len behind_schedule >? 2
       then "Resource reallocation assessment required"
       else "Schedule performance acceptable" |}.

Definition _generate_recommendations (self : ClarityPPMAnalyzer)
    (critical at_risk : list Project) : list Recommendation :=
  let recommendations : list Recommendation := [] in
  let recommendations :=
    if truthy critical then
      (recommendations ++ [{|
        priority := 1;
        recommendation := "Emergency Portfolio Review";
        rationale := Py.str (Py.len critical)
          ++ " projects in critical status requiring immediate executive intervention";
        actions := [
          "Schedule emergency steering committee meeting within 48 hours";
          "Develop recovery plans for each critical project";
          "Assess resource reallocation options";
          "Determine go/no-go decisions" ];
        timeline := "Immediate (Within 48 hours)" |}])%list
    else recommendations in
  let recommendations :=
    if Py.len at_risk >? 1 then
      (recommendations ++ [{|
        priority := 2;
        recommendation := "Enhanced Project Monitoring";
        rationale := Py.str (Py.len at_risk) ++ " at-risk projects need closer oversight";
        actions := [
          "Increase reporting frequency to weekly";
          "Assign executive sponsors to at-risk projects";
          "Implement early warning indicators";
          "Review and update risk mitigation plans" ];
        timeline := "Within 1 week" |}])%list
    else recommendations in
  let recommendations :=
    if Portfolio.projects_over_budget (Portfolio.budget (portfolio_health self)) >? 2 then
      (recommendations ++ [{|
        priority := 3;
        recommendation := "Portfolio Budget Reforecast";
        rationale :=
          "Multiple projects over budget indicating systemic estimation issues";
        actions := [
          "Conduct comprehensive budget review";
          "Update forecast-to-complete estimates";
          "Identify potential funding gaps";
          "Implement tighter cost controls" ];
        timeline := "Within 2 weeks" |}])%list
    else recommendations in
  recommendations.

(** The entries ["key_concerns"], ["timeline_analysis"] and
    ["recommendations"] of the dictionary [generate_insights] returns. *)
Definition key_concerns (self : ClarityPPMAnalyzer) : list Concern :=
  _identify_key_concerns self (critical_projects self) (at_risk_projects self).

Definition timeline_analysis (self : ClarityPPMAnalyzer) : TimelineAnalysis :=
  _analyze_portfolio_timeline self.

Definition recommendations (self : ClarityPPMAnalyzer) : list Recommendation :=
  _generate_recommendations self (critical_projects self) (at_risk_projects self).

(** [fetch_data] against a server holding [DATA]: the three requests are
    made in the order projects, summary, health; a route that fails makes
    [raise_for_status] raise and [fetch_data] return [False], here [None].
    When all three answer, the project list and the ["data"] of the health
    route are the two fields of the analyzer. *)
Definition fetch_data (DATA : list Project) (now : string) : option ClarityPPMAnalyzer :=
  let projects_data := Clarity_api_server.projects_data
                         (fst (Clarity_api_server.get_projects DATA now)) in
  match Clarity_api_server.get_portfolio_summary DATA now with
  | inl _ => None
  | inr _ =>
      match Clarity_api_server.get_portfolio_health DATA now with
      | inl _ => None
      | inr (body, _) =>
          Some {| projects := projects_data;
                  portfolio_health := Clarity_api_server.health_data body |}
      end
  end.

(** *** The rest of the analyzer *)

Module Summary := Clarity_api_server.Summary.

Local Notation "x <- m ;; k" := (Clarity_api_server.bind m (fun x => k))
  (at level 61, m at next level, right associativity).

(** The three data fields of the object, [{}] being a dictionary that holds
    nothing yet. *)
Record Fields : Type := mkFields {
  self_projects : list Project;
  self_portfolio_summary : option Summary.t;
  self_portfolio_health : option Portfolio.Health
}.

(** [__init__] *)
Definition __init__ : Fields :=
  {| self_projects := [];
     self_portfolio_summary := None;
     self_portfolio_health := None |}.

(** [fetch_data] as a change of the three fields, with its result, against
    a reachable server holding [DATA].  The three requests are made in the
    order projects, summary, health; each response is stored as soon as it
    is there, and a route that raised stops the method with [False].  The
    lines it prints carry the text of the error of the HTTP library and are
    left out.  [fetch_data] above is its outcome as an analyzer. *)
Definition fetch_data_fields (DATA : list Project) (now : string) (self : Fields)
    : bool * Fields :=
  let projects_data :=
    Clarity_api_server.projects_data (fst (Clarity_api_server.get_projects DATA now)) in
  let self := {| self_projects := projects_data;
                 self_portfolio_summary := self_portfolio_summary self;
                 self_portfolio_health := self_portfolio_health self |} in
  match Clarity_api_server.get_portfolio_summary DATA now with
  | inl _ => (false, self)
  | inr (summary, _) =>
      let self := {| self_projects := self_projects self;
                     self_portfolio_summary :=
                       Some (Clarity_api_server.summary_data summary);
                     self_portfolio_health := self_portfolio_health self |} in
      match Clarity_api_server.get_portfolio_health DATA now with
      | inl _ => (false, self)
      | inr (body, _) =>
          (true, {| self_projects := self_projects self;
                    self_portfolio_summary := self_portfolio_summary self;
                    self_portfolio_health :=
                      Some (Clarity_api_server.health_data body) |})
      end
  end.

(** The analyzer once the three fields are filled: the two fields above and
    [self.portfolio_summary]. *)
Record FetchedAnalyzer : Type := mkFetched {
  fetched :> ClarityPPMAnalyzer;
  portfolio_summary : Summary.t
}.

(** The fields as a filled analyzer, when the two dictionaries are there. *)
Definition filled (self : Fields) : option FetchedAnalyzer :=
  match self_portfolio_summary self, self_portfolio_health self with
  | Some ps, Some ph =>
      Some {| fetched := {| projects := self_projects self; portfolio_health := ph |};
              portfolio_summary := ps |}
  | _, _ => None
  end.

(** The ["scope"] entry of an analysis. *)
Module ScopeDim.
Record Metrics : Type := mkMetrics {
  total_items : Z;
  completed : Z;
  in_progress : Z;
  scope_changes : Z
}.
Record t : Type := mk {
  status : string;
  variance_percentage : Q;
  assessment : string;
  metrics : Metrics
}.
End ScopeDim.

(** The ["budget"] entry of an analysis. *)
Module BudgetDim.
Record Metrics : Type := mkMetrics {
  total : Z;
  spent : Z;
  remaining : Z;
  utilization : Q
}.
Record t : Type := mk {
  status : string;
  variance_percentage : Q;
  variance_amount : Z;
  assessment : string;
  metrics : Metrics
}.
End BudgetDim.

(** The ["timeline"] entry of an analysis. *)
Module TimelineDim.
Record Metrics : Type := mkMetrics {
  percent_complete : Z;
  planned_duration : Z;
  actual_duration : Z;
  milestones : string
}.
Record t : Type := mk {
  status : string;
  variance_days : Z;
  assessment : string;
  metrics : Metrics
}.
End TimelineDim.

(** The result of [analyze_project_health]. *)
Module Analysis.
Record Dimensions : Type := mkDimensions {
  scope : ScopeDim.t;
  budget : BudgetDim.t;
  timeline : TimelineDim.t
}.
Record t : Type := mk {
  project_id : string;
  project_name : string;
  overall_status : string;
  health_score : Z;
  dimensions : Dimensions
}.
End Analysis.

(** The budget entry calls [_assess_budget] and then divides once more for
    the utilization it reports. *)
Definition analyze_project_health (project : Project) : Py.exn + Analysis.t :=
  let scope_variance := scope_variance_percentage (scope project) in
  let scope_entry := {|
    ScopeDim.status := scope_status (health project);
    ScopeDim.variance_percentage := scope_variance;
    ScopeDim.assessment :=
      _assess_scope scope_variance (scope_changes (scope project));
    ScopeDim.metrics := {|
      ScopeDim.total_items := original_scope_items (scope project);
      ScopeDim.completed := completed_items (scope project);
      ScopeDim.in_progress := in_progress_items (scope project);
      ScopeDim.scope_changes := scope_changes (scope project) |} |} in
  let budget_variance := variance_percentage (budget project) in
  budget_assessment <-
    _assess_budget budget_variance (spent (budget project)) (total (budget project)) ;;
  ratio <-
    Py.truediv (inject_Z (spent (budget project))) (inject_Z (total (budget project))) ;;
  let budget_entry := {|
    BudgetDim.status := budget_status (health project);
    BudgetDim.variance_percentage := budget_variance;
    BudgetDim.variance_amount := variance (budget project);
    BudgetDim.assessment := budget_assessment;
    BudgetDim.metrics := {|
      BudgetDim.total := total (budget project);
      BudgetDim.spent := spent (budget project);
      BudgetDim.remaining := remaining (budget project);
      BudgetDim.utilization := Py.fmul ratio 100 |} |} in
  let schedule_variance_days := variance_days (schedule project) in
  let percent_complete := percent_complete (schedule project) in
  let timeline_entry := {|
    TimelineDim.status := schedule_status (health project);
    TimelineDim.variance_days := schedule_variance_days;
    TimelineDim.assessment :=
    _assess_timeline (Py.Int schedule_variance_days) (Py.Int percent_complete);
    TimelineDim.metrics := {|
      TimelineDim.percent_complete := percent_complete;
      TimelineDim.planned_duration := planned_duration_days (schedule project);
      TimelineDim.actual_duration := actual_duration_days (schedule project);
      TimelineDim.milestones := milestone_completion (schedule project) |} |} in
  inr {| Analysis.project_id := id project;
         Analysis.project_name := name project;
         Analysis.overall_status := overall_status (health project);
         Analysis.health_score := health_score (health project);
         Analysis.dimensions := {|
           Analysis.scope := scope_entry;
           Analysis.budget := budget_entry;
           Analysis.timeline := timeline_entry |} |}.

Definition _generate_executive_summary (self : FetchedAnalyzer) : string :=
  let ps := portfolio_summary self in
  let ph := portfolio_health self in
  let summary :=
    "Portfolio consists of " ++ Py.str (Summary.total_projects ps)
    ++ " active projects with a combined budget of $"
    ++ Py.fmt_comma_0f (inject_Z (Summary.total (Summary.budget ps))) ++ ". " ++ Py.nl
    ++ "        " ++ Py.nl
    ++ "Current Status: "
    ++ Py.str (Summary.on_track (Summary.status_distribution ps))
    ++ " projects on track, "
    ++ Py.str (Summary.at_risk (Summary.status_distribution ps)) ++ " at risk, and "
    ++ Py.str (Summary.critical (Summary.status_distribution ps))
    ++ " in critical status." ++ Py.nl
    ++ Py.nl
    ++ "Overall portfolio health score is "
    ++ Py.fmt_0f (Summary.average_health_score ps)
    ++ "/100 with average project completion at "
    ++ Py.fmt_0f (Summary.average_completion ps) ++ "%." ++ Py.nl
    ++ Py.nl
    ++ "Budget: Portfolio has spent $"
    ++ Py.fmt_comma_0f (inject_Z (Summary.spent (Summary.budget ps))) ++ " ("
    ++ Py.fmt_1f (Summary.utilization_percentage (Summary.budget ps))
    ++ "% utilization) with "
    ++ Py.str (Portfolio.projects_over_budget (Portfolio.budget ph))
    ++ " projects currently over budget." ++ Py.nl
    ++ Py.nl
    ++ "Timeline: Average schedule variance is "
    ++ Py.fmt_1f (Portfolio.average_variance_days (Portfolio.schedule ph))
    ++ " days with " ++ Py.str (Portfolio.projects_behind (Portfolio.schedule ph))
    ++ " projects behind schedule." ++ Py.nl
    ++ Py.nl
    ++ "Scope: " ++ Py.str (Portfolio.projects_with_variance (Portfolio.scope ph))
    ++ " projects showing significant scope variance (>5%), averaging "
    ++ Py.fmt_1f (Portfolio.average_variance (Portfolio.scope ph))
    ++ "% variance across portfolio." in
  Py.strip summary.

(** The result of [_analyze_portfolio_scope]. *)
Module ScopeAnalysis.
Record t : Type := mk {
  summary : string;
  total_scope_changes : Z;
  average_variance : Q;
  projects_with_issues : list string;
  recommendation : string
}.
End ScopeAnalysis.

(** The result of [_analyze_portfolio_budget]. *)
Module BudgetAnalysis.
Record t : Type := mk {
  summary : string;
  projects_over_budget : Z;
  total_variance : Z;
  utilization : Q;
  projects_with_issues : list string;
  recommendation : string
}.
End BudgetAnalysis.

Definition _analyze_portfolio_scope (self : ClarityPPMAnalyzer) : ScopeAnalysis.t :=
  let high_variance :=
    filter (fun p => Py.Qgtb (scope_variance_percentage (scope p)) 10) (projects self) in
  let total_changes := Py.sumZ (map (fun p => scope_changes (scope p)) (projects self)) in
  {| ScopeAnalysis.summary := Py.str (Py.len high_variance)
       ++ " projects with high scope variance (>10%)";
     ScopeAnalysis.total_scope_changes := total_changes;
     ScopeAnalysis.average_variance :=
       Portfolio.average_variance (Portfolio.scope (portfolio_health self));
     ScopeAnalysis.projects_with_issues := map name high_variance;
     ScopeAnalysis.recommendation :=
       if Py.len high_variance >? 2
       then "Implement stricter change control process"
       else "Scope management is adequate" |}.

Definition _analyze_portfolio_budget (self : FetchedAnalyzer) : BudgetAnalysis.t :=
  let over_budget := filter (fun p => variance (budget p) <? 0) (projects self) in
  let total_variance := Py.sumZ (map (fun p => variance (budget p)) (projects self)) in
  {| BudgetAnalysis.summary := Py.str (Py.len over_budget)
       ++ " projects over budget with total variance of $"
       ++ Py.fmt_comma_0f (inject_Z total_variance);
     BudgetAnalysis.projects_over_budget := Py.len over_budget;
     BudgetAnalysis.total_variance := total_variance;
     BudgetAnalysis.utilization :=
       Summary.utilization_percentage (Summary.budget (portfolio_summary self));
     BudgetAnalysis.projects_with_issues := map name over_budget;
     BudgetAnalysis.recommendation :=
       if Py.len over_budget >? 2
       then "Immediate cost control measures needed"
       else "Budget performance acceptable" |}.

(** The dictionary [generate_insights] returns. *)
Module Insights.
Record t : Type := mk {
  executive_summary : string;
  key_concerns : list Concern;
  scope_analysis : ScopeAnalysis.t;
  budget_analysis : BudgetAnalysis.t;
  timeline_analysis : TimelineAnalysis;
  recommendations : list Recommendation;
  project_analyses : list Analysis.t
}.
End Insights.

(** The loop of [generate_insights]: each project is analysed, then its
    progress line is printed.  [out] is what was printed so far, one entry
    for each call of [print]. *)
Fixpoint analyze_each (todo : list Project) (out : list string)
    (project_analyses : list Analysis.t) : list string * (Py.exn + list Analysis.t) :=
  match todo with
  | [] => (out, inr project_analyses)
  | project :: rest =>
      match analyze_project_health project with
      | inl e => (out, inl e)
      | inr analysis =>
          let line := "  ✓ " ++ name project ++ ": " ++ overall_status (health project) in
          analyze_each rest (out ++ [line])%list (project_analyses ++ [analysis])%list
      end
  end.

(** [generate_insights]: what it prints, one entry for each call of
    [print], and the exception or the insights. *)
Definition generate_insights (self : FetchedAnalyzer)
    : list string * (Py.exn + Insights.t) :=
  let out := [ Py.nl ++ Py.repeat "=" 80;
               "🤖 STEP 2: ANALYZING PORTFOLIO WITH CLAUDE AI";
               Py.repeat "=" 80;
               Py.nl ++ "📊 Analyzing individual projects..." ] in
  match analyze_each (projects self) out [] with
  | (out, inl e) => (out, inl e)
  | (out, inr project_analyses) =>
      let line := Py.nl ++ "🧠 Generating executive insights..." in
      let out := (out ++ [line])%list in
      let critical_projects := filter is_critical (projects self) in
      let at_risk_projects := filter is_at_risk (projects self) in
      let insights := {|
        Insights.executive_summary := _generate_executive_summary self;
        Insights.key_concerns :=
          _identify_key_concerns self critical_projects at_risk_projects;
        Insights.scope_analysis := _analyze_portfolio_scope self;
        Insights.budget_analysis := _analyze_portfolio_budget self;
        Insights.timeline_analysis := _analyze_portfolio_timeline self;
        Insights.recommendations :=
          _generate_recommendations self critical_projects at_risk_projects;
        Insights.project_analyses := project_analyses |} in
      ((out ++ ["✅ Analysis complete"])%list, inr insights)
  end.

(** [print_summary]: what it prints, one entry for each call of [print]. *)
Definition print_summary (insights : Insights.t) : list string :=
  let head := [ Py.nl ++ Py.repeat "=" 80;
                "📊 EXECUTIVE SUMMARY";
                Py.repeat "=" 80;
                Py.nl ++ Insights.executive_summary insights;
                Py.nl ++ Py.nl ++ "🚨 KEY CONCERNS:" ] in
  let concern_lines := fun c =>
    [ Py.nl ++ "  [" ++ severity c ++ "] " ++ concern c;
      "  Details: " ++ details c;
      "  Action: " ++ action c ] in
  let recommendation_lines := fun rec =>
    [ Py.nl ++ "  Priority " ++ Py.str (priority rec) ++ ": " ++ recommendation rec;
      "  Rationale: " ++ rationale rec;
      "  Timeline: " ++ timeline rec ] in
  (head
   ++ flat_map concern_lines (Insights.key_concerns insights)
   ++ [ Py.nl ++ Py.nl ++ "🎯 TOP RECOMMENDATIONS:" ]%string
   ++ flat_map recommendation_lines (firstn 3 (Insights.recommendations insights))
   ++ [ Py.nl ++ Py.repeat "=" 80 ]%string)%list.

End Claude_desktop_automation.

(** ** Vocabulary of the properties *)

Import Clarity.
Module Server := Clarity_api_server.
Module Analyzer := Claude_desktop_automation.

(** The project has the overall status [st]. *)
Definition has_status (st : string) (p : Project) : Prop :=
  overall_status (health p) = st.

(** The number of projects of a collection with the overall status [st]. *)
Definition count_status (st : string) (l : list Project) : Z :=
  Py.len (filter (fun p => (overall_status (health p) =? st)%string) l).

(** A recommendation of priority [n] is in the list. *)
Definition emitted (n : Z) (recs : list Analyzer.Recommendation) : Prop :=
  exists r, In r recs /\ Analyzer.priority r = n.

(** A concern of severity [sev] is in the list. *)
Definition has_concern (sev : string) (cs : list Analyzer.Concern) : Prop :=
  exists c, In c cs /\ Analyzer.severity c = sev.

(** A project with the schedule variance set to [d] days. *)
Definition with_variance_days (d : Z) (p : Project) : Project :=
  {| id := id p; name := name p; code := code p; manager := manager p;
     sponsor := sponsor p; department := department p; priority := priority p;
     start_date := start_date p; planned_end_date := planned_end_date p;
     current_end_date := current_end_date p; budget := budget p;
     schedule := {| planned_duration_days := planned_duration_days (schedule p);
                    actual_duration_days := actual_duration_days (schedule p);
                    percent_complete := percent_complete (schedule p);
                    variance_days := d;
                    milestone_completion := milestone_completion (schedule p) |};
     scope := scope p; health := health p; risks := risks p; team := team p |}.

(** A project with the overall status [st] and the budget variance [v]. *)
Definition with_status_variance (st : string) (v : Z) (p : Project) : Project :=
  {| id := id p; name := name p; code := code p; manager := manager p;
     sponsor := sponsor p; department := department p; priority := priority p;
     start_date := start_date p; planned_end_date := planned_end_date p;
     current_end_date := current_end_date p;
     budget := {| total := total (budget p); spent := spent (budget p);
                  remaining := remaining (budget p); variance := v;
                  variance_percentage := variance_percentage (budget p) |};
     schedule := schedule p; scope := scope p;
     health := {| overall_status := st;
                  scope_status := scope_status (health p);
                  budget_status := budget_status (health p);
                  schedule_status := schedule_status (health p);
                  health_score := health_score (health p) |};
     risks := risks p; team := team p |}.

(** A collection and an analyzer fetched from it, for each choice of the
    three triggers. *)
Definition trigger_data (b1 b2 b3 : bool) : list Project :=
  (Server.PRJ002
   :: (if b1 then [with_status_variance "Critical" 0 Server.PRJ003] else [])
   ++ (if b2 then [with_status_variance "At Risk" 0 Server.PRJ001;
                   with_status_variance "At Risk" 0 Server.PRJ005] else [])
   ++ (if b3 then [with_status_variance "On Track" (-1) Server.PRJ002;
                   with_status_variance "On Track" (-1) Server.PRJ004;
                   with_status_variance "On Track" (-1) Server.PRJ004] else []))%list.

(** A health aggregate with the counts of the sample data, its averages as
    decimals. *)
Definition sample_health : Server.Portfolio.Health :=
  {| Server.Portfolio.scope :=
       {| Server.Portfolio.projects_with_variance := 3;
          Server.Portfolio.average_variance := 84 # 10 |};
     Server.Portfolio.budget :=
       {| Server.Portfolio.projects_over_budget := 3;
          Server.Portfolio.total_variance := -25000;
          Server.Portfolio.average_variance_percentage := -111 # 100 |};
     Server.Portfolio.schedule :=
       {| Server.Portfolio.projects_behind := 3;
          Server.Portfolio.average_variance_days := -84 # 10 |} |}.

(** A project with the total budget set to [t]. *)
Definition with_budget_total (t : Z) (p : Project) : Project :=
  {| id := id p; name := name p; code := code p; manager := manager p;
     sponsor := sponsor p; department := department p; priority := priority p;
     start_date := start_date p; planned_end_date := planned_end_date p;
     current_end_date := current_end_date p;
     budget := {| total := t; spent := spent (budget p);
                  remaining := remaining (budget p); variance := variance (budget p);
                  variance_percentage := variance_percentage (budget p) |};
     schedule := schedule p; scope := scope p; health := health p;
     risks := risks p; team := team p |}.

(** A project with the remaining budget set to [r]. *)
Definition with_budget_remaining (r : Z) (p : Project) : Project :=
  {| id := id p; name := name p; code := code p; manager := manager p;
     sponsor := sponsor p; department := department p; priority := priority p;
     start_date := start_date p; planned_end_date := planned_end_date p;
     current_end_date := current_end_date p;
     budget := {| total := total (budget p); spent := spent (budget p);
                  remaining := r; variance := variance (budget p);
                  variance_percentage := variance_percentage (budget p) |};
     schedule := schedule p; scope := scope p; health := health p;
     risks := risks p; team := team p |}.

(** A summary aggregate with the totals and counts of the sample data. *)
Definition sample_summary : Server.Summary.t :=
  {| Server.Summary.total_projects := 5;
     Server.Summary.budget :=
       {| Server.Summary.total := 2520000;
          Server.Summary.spent := 1905000;
          Server.Summary.remaining := 615000;
          Server.Summary.utilization_percentage := 190500000 # 2520000 |};
     Server.Summary.status_distribution :=
       {| Server.Summary.on_track := 2;
          Server.Summary.at_risk := 2;
          Server.Summary.critical := 1 |};
     Server.Summary.average_health_score := 69;
     Server.Summary.average_completion := 684 # 10;
     Server.Summary.total_risks := 22;
     Server.Summary.critical_risks := 8 |}.

(** An analyzer over a list of projects, with the sample aggregates. *)
Definition analyzer_over (l : list Project) : Analyzer.FetchedAnalyzer :=
  {| Analyzer.fetched := {| Analyzer.projects := l;
                            Analyzer.portfolio_health := sample_health |};
     Analyzer.portfolio_summary := sample_summary |}.

(** The progress line [generate_insights] prints for a project. *)
Definition progress_line (p : Project) : string :=
  "  ✓ " ++ name p ++ ": " ++ overall_status (health p).

(** The lines [generate_insights] prints before its loop. *)
Definition insights_banner : list string :=
  [ Py.nl ++ Py.repeat "=" 80;
    "🤖 STEP 2: ANALYZING PORTFOLIO WITH CLAUDE AI";
    Py.repeat "=" 80;
    Py.nl ++ "📊 Analyzing individual projects..." ].

(** The invariant of a project record as the specification words it: the
    remaining budget is the total less the spent amount, the three item
    counts sum to at most the original item count, and the percentages other
    than the variance percentages (completion, team utilization) are within
    0 and 100. *)
Definition stated_invariant (p : Project) : Prop :=
  remaining (budget p) = total (budget p) - spent (budget p) /\
  completed_items (scope p) + in_progress_items (scope p) + pending_items (scope p)
    <= original_scope_items (scope p) /\
  0 <= percent_complete (schedule p) <= 100 /\
  0 <= utilization (team p) <= 100.

(** The same with the item counts bounded by the original items plus the
    scope changes. *)
Definition record_invariant (p : Project) : Prop :=
  remaining (budget p) = total (budget p) - spent (budget p) /\
  completed_items (scope p) + in_progress_items (scope p) + pending_items (scope p)
    <= original_scope_items (scope p) + scope_changes (scope p) /\
  0 <= percent_complete (schedule p) <= 100 /\
  0 <= utilization (team p) <= 100.

(** * Properties *)

(** ** Comparisons and truthiness *)

Lemma Qltb_lt (x y : Q) : Py.Qltb x y = true <-> (x < y)%Q.
Proof. unfold Py.Qltb, Qlt. apply Z.ltb_lt. Qed.

Lemma Qltb_ge (x y : Q) : Py.Qltb x y = false <-> (y <= x)%Q.
Proof. unfold Py.Qltb, Qle. apply Z.ltb_ge. Qed.

Lemma Qgtb_gt (x y : Q) : Py.Qgtb x y = true <-> (y < x)%Q.
Proof. apply Qltb_lt. Qed.

Lemma Qgtb_le (x y : Q) : Py.Qgtb x y = false <-> (x <= y)%Q.
Proof. apply Qltb_ge. Qed.

Lemma truediv_nonzero (x : Q) (n : Z) :
  n <> 0 -> Py.truediv x (inject_Z n) = inr (Py.fl (x / inject_Z n)).
Proof.
  intros Hn. unfold Py.truediv.
  destruct (Qeq_bool (inject_Z n) 0) eqn:E; [|reflexivity].
  apply Qeq_bool_iff in E. unfold Qeq in E. simpl in E. lia.
Qed.

Lemma truediv_zero (x : Q) : Py.truediv x (inject_Z 0) = inl Py.ZeroDivisionError.
Proof. reflexivity. Qed.

Lemma truthy_filter {A : Type} (f : A -> bool) (l : list A) :
  Analyzer.truthy (filter f l) = existsb f l.
Proof.
  induction l as [|a l IH]; simpl; [reflexivity|].
  destruct (f a); simpl; [reflexivity | exact IH].
Qed.

(** ** The per-project assessors *)

(** The three strict comparisons leave exactly one case for every number. *)
Ltac split_Q :=
  repeat match goal with
  | H : Py.Qgtb _ _ = true |- _ => apply Qgtb_gt in H
  | H : Py.Qgtb _ _ = false |- _ => apply Qgtb_le in H
  | H : Py.Qltb _ _ = true |- _ => apply Qltb_lt in H
  | H : Py.Qltb _ _ = false |- _ => apply Qltb_ge in H
  end.

(** The narrative of each branch, with the condition that selects it. *)
Lemma assess_scope_cases (v : Q) (c : Z) :
  ((15 < v)%Q /\ tier (Analyzer._assess_scope v c) = "CRITICAL") \/
  ((5 < v)%Q /\ (v <= 15)%Q /\ tier (Analyzer._assess_scope v c) = "WARNING") \/
  ((v <= 5)%Q /\ tier (Analyzer._assess_scope v c) = "HEALTHY").
Proof.
  unfold Analyzer._assess_scope.
  destruct (Py.Qgtb v 15) eqn:E15; [|destruct (Py.Qgtb v 5) eqn:E5]; split_Q.
  - left. split; [assumption | reflexivity].
  - right; left. repeat split; assumption || reflexivity.
  - right; right. split; [assumption | reflexivity].
Qed.

(** C1.  For every scope variance [v] and change count [c], the narrative of
    [_assess_scope] carries the tier CRITICAL exactly when [v > 15], WARNING
    exactly when [5 < v <= 15] and HEALTHY exactly when [v <= 5]; the ties
    [v = 5] and [v = 15] fall to HEALTHY and to WARNING. *)
Theorem assess_scope_tiers (v : Q) (c : Z) :
  (tier (Analyzer._assess_scope v c) = "CRITICAL" <-> (15 < v)%Q) /\
  (tier (Analyzer._assess_scope v c) = "WARNING" <-> (5 < v)%Q /\ (v <= 15)%Q) /\
  (tier (Analyzer._assess_scope v c) = "HEALTHY" <-> (v <= 5)%Q) /\
  tier (Analyzer._assess_scope 5 c) = "HEALTHY" /\
  tier (Analyzer._assess_scope 15 c) = "WARNING".
Proof.
  assert (B5 : tier (Analyzer._assess_scope 5 c) = "HEALTHY") by reflexivity.
  assert (B15 : tier (Analyzer._assess_scope 15 c) = "WARNING") by reflexivity.
  destruct (assess_scope_cases v c) as [[H T] | [[H [H' T]] | [H T]]];
    rewrite T; repeat split; auto; try discriminate; try lra;
    intros; exfalso; lra.
Qed.

Lemma assess_budget_cases (p : Q) (spent total : Z) :
  total <> 0 ->
  let utilization := Py.fmul (Py.fl (inject_Z spent / inject_Z total)) 100 in
  ((p < -5)%Q /\
   Analyzer._assess_budget p spent total =
     inr ("CRITICAL: Project is " ++ Py.fmt_1f (Qabs p)
            ++ "% over budget. Immediate cost control required.")) \/
  ((-5 <= p)%Q /\ (p < 0)%Q /\
   Analyzer._assess_budget p spent total =
     inr ("WARNING: Project trending " ++ Py.fmt_1f (Qabs p)
            ++ "% over budget at " ++ Py.fmt_1f utilization ++ "% utilization.")) \/
  ((0 <= p)%Q /\
   Analyzer._assess_budget p spent total =
     inr ("HEALTHY: Budget on track with " ++ Py.fmt_1f p ++ "% positive variance.")).
Proof.
  intros Htotal utilization. unfold Analyzer._assess_budget.
  rewrite (truediv_nonzero _ _ Htotal).
  destruct (Py.Qltb p (-5)) eqn:E5; [|destruct (Py.Qltb p 0) eqn:E0]; split_Q.
  - left. split; [assumption | reflexivity].
  - right; left. repeat split; assumption || reflexivity.
  - right; right. split; [assumption | reflexivity].
Qed.

(** A zero total makes the quotient of the utilization raise, in every tier. *)
Lemma assess_budget_zero_total (p : Q) (spent : Z) :
  Analyzer._assess_budget p spent 0 = inl Py.ZeroDivisionError.
Proof. reflexivity. Qed.

(** C2.  With a positive total budget, [_assess_budget] returns a narrative
    for every budget variance [p]: of tier CRITICAL exactly when [p < -5], of
    tier WARNING exactly when [-5 <= p < 0], and then the text reports the
    utilization [spent / total * 100] as the machine computes it, the double
    quotient multiplied by 100 and shown with one decimal, and of tier
    HEALTHY exactly when [p >= 0]; at [p = -5] the tier is WARNING. *)
Theorem assess_budget_tiers (p : Q) (spent total : Z) (Htotal : 0 < total) :
  (exists s, Analyzer._assess_budget p spent total = inr s /\
     (tier s = "CRITICAL" <-> (p < -5)%Q) /\
     (tier s = "WARNING" <-> (-5 <= p)%Q /\ (p < 0)%Q) /\
     (tier s = "HEALTHY" <-> (0 <= p)%Q) /\
     ((-5 <= p)%Q /\ (p < 0)%Q ->
      s = "WARNING: Project trending " ++ Py.fmt_1f (Qabs p) ++ "% over budget at "
            ++ Py.fmt_1f (Py.fmul (Py.fl (inject_Z spent / inject_Z total)) 100)
            ++ "% utilization.")) /\
  (exists s, Analyzer._assess_budget (-5) spent total = inr s /\ tier s = "WARNING").
Proof.
  assert (Hnz : total <> 0) by lia.
  split.
  - destruct (assess_budget_cases p spent total Hnz) as [[H E] | [[H [H' E]] | [H E]]];
      rewrite E; eexists; (split; [reflexivity|]);
      cbn [tier append Ascii.eqb Bool.eqb]; repeat split; auto; try discriminate; try lra;
      intros; exfalso; lra.
  - destruct (assess_budget_cases (-5) spent total Hnz) as [[H E] | [[H [H' E]] | [H E]]].
    + exfalso; lra.
    + rewrite E. eexists; split; reflexivity.
    + exfalso; lra.
Qed.

(** A variance of -1 with 240200 spent of 400000: the double quotient times
    100 is 60.050000000000004, shown as 60.1. *)
Lemma assess_budget_tiers_witness :
  0 < 400000 /\
  exists s, Analyzer._assess_budget (-1) 240200 400000 = inr s /\
            s = "WARNING: Project trending 1.0% over budget at 60.1% utilization.".
Proof.
  split; [lia|].
  destruct (assess_budget_tiers (-1) 240200 400000 ltac:(lia))
    as [[s [E [_ [_ [_ W]]]]] _].
  exists s. split; [exact E|].
  rewrite W; [vm_compute; reflexivity | split; [discriminate | reflexivity]].
Defined.

Lemma value_Int_lt (d n : Z) : (Py.value (Py.Int d) < inject_Z n)%Q <-> d < n.
Proof. unfold Qlt. simpl. lia. Qed.

Lemma value_Int_gt (d n : Z) : (inject_Z n < Py.value (Py.Int d))%Q <-> n < d.
Proof. unfold Qlt. simpl. lia. Qed.

(** The narrative of each branch, with the condition that selects it. *)
Lemma assess_timeline_cases (d c : Py.number) :
  ((Py.value d < -20)%Q /\ tier (Analyzer._assess_timeline d c) = "CRITICAL") \/
  ((-20 <= Py.value d)%Q /\ (Py.value d < -5)%Q /\
   tier (Analyzer._assess_timeline d c) = "WARNING") \/
  ((5 < Py.value d)%Q /\ tier (Analyzer._assess_timeline d c) = "AHEAD") \/
  ((-5 <= Py.value d)%Q /\ (Py.value d <= 5)%Q /\
   tier (Analyzer._assess_timeline d c) = "ON TRACK").
Proof.
  unfold Analyzer._assess_timeline.
  destruct (Py.Qltb (Py.value d) (-20)) eqn:E20;
    [|destruct (Py.Qltb (Py.value d) (-5)) eqn:E5;
      [|destruct (Py.Qgtb (Py.value d) 5) eqn:E5']]; split_Q.
  - left. split; [assumption | reflexivity].
  - right; left. repeat split; assumption || reflexivity.
  - right; right; left. split; [assumption | reflexivity].
  - right; right; right. repeat split; assumption || reflexivity.
Qed.

(** C3.  For every schedule variance [d] in days, an [int] or a float, and
    every completion [c], the narrative of [_assess_timeline] carries the
    tier CRITICAL exactly when [d < -20], WARNING exactly when
    [-20 <= d < -5], AHEAD exactly when [d > 5] and ON TRACK exactly when
    [-5 <= d <= 5]; at [d = -5] the tier is ON TRACK, and at the double
    -5.0001 it is WARNING. *)
Theorem assess_timeline_tiers (d c : Py.number) :
  (tier (Analyzer._assess_timeline d c) = "CRITICAL" <-> (Py.value d < -20)%Q) /\
  (tier (Analyzer._assess_timeline d c) = "WARNING"
   <-> (-20 <= Py.value d)%Q /\ (Py.value d < -5)%Q) /\
  (tier (Analyzer._assess_timeline d c) = "AHEAD" <-> (5 < Py.value d)%Q) /\
  (tier (Analyzer._assess_timeline d c) = "ON TRACK"
   <-> (-5 <= Py.value d)%Q /\ (Py.value d <= 5)%Q) /\
  tier (Analyzer._assess_timeline (Py.Int (-5)) c) = "ON TRACK" /\
  tier (Analyzer._assess_timeline (Py.Float (-5)) c) = "ON TRACK" /\
  tier (Analyzer._assess_timeline (Py.Float (Py.fl (-50001 # 10000))) c) = "WARNING".
Proof.
  assert (B1 : tier (Analyzer._assess_timeline (Py.Int (-5)) c) = "ON TRACK")
    by reflexivity.
  assert (B2 : tier (Analyzer._assess_timeline (Py.Float (-5)) c) = "ON TRACK")
    by reflexivity.
  assert (B3 : tier (Analyzer._assess_timeline (Py.Float (Py.fl (-50001 # 10000))) c)
               = "WARNING").
  { unfold Analyzer._assess_timeline.
    assert (E1 : Py.Qltb (Py.value (Py.Float (Py.fl (-50001 # 10000)))) (-20) = false)
      by (vm_compute; reflexivity).
    assert (E2 : Py.Qltb (Py.value (Py.Float (Py.fl (-50001 # 10000)))) (-5) = true)
      by (vm_compute; reflexivity).
    rewrite E1, E2. reflexivity. }
  split; [|split; [|split; [|split; [|split; [exact B1 | split; [exact B2 | exact B3]]]]]];
    clear B1 B2 B3;
    destruct (assess_timeline_cases d c)
      as [[H T] | [[H [H' T]] | [[H T] | [H [H' T]]]]];
    rewrite T; (split; [intros E; try discriminate E; try lra; try (split; lra)
                       | intros E; try reflexivity; exfalso; lra]).
Qed.

(** An [int] and a float day count are compared alike and printed each in
    its own way. *)
Lemma assess_timeline_texts :
  Analyzer._assess_timeline (Py.Int (-12)) (Py.Int 68)
    = "WARNING: Project is 12 days behind with 68% complete." /\
  Analyzer._assess_timeline (Py.Float (Py.fl (-50001 # 10000))) (Py.Int 50)
    = "WARNING: Project is 5.0001 days behind with 50% complete." /\
  Analyzer._assess_timeline (Py.Float 12) (Py.Float (685 # 10))
    = "AHEAD: Project is 12.0 days ahead of schedule.".
Proof. repeat split; vm_compute; reflexivity. Qed.

(** ** The recommendation ranker *)

Lemma existsb_status (st : string) (l : list Project) :
  existsb (fun p => (overall_status (health p) =? st)%string) l = true <->
  exists p, In p l /\ has_status st p.
Proof.
  rewrite existsb_exists. unfold has_status.
  split; intros [p [Hin Hp]]; exists p; split; auto; now apply String.eqb_eq.
Qed.

(** What [fetch_data] stores, for a server with at least one project and a
    total budget that is not zero. *)
Lemma fetch_data_spec (DATA : list Project) (now : string) :
  DATA <> [] ->
  Py.sumZ (map (fun p => total (budget p)) DATA) <> 0 ->
  exists self,
    Analyzer.fetch_data DATA now = Some self /\
    Analyzer.projects self = DATA /\
    Server.Portfolio.projects_over_budget
      (Server.Portfolio.budget (Analyzer.portfolio_health self))
      = Py.len (filter (fun p => variance (budget p) <? 0) DATA) /\
    Server.Portfolio.projects_behind
      (Server.Portfolio.schedule (Analyzer.portfolio_health self))
      = Py.len (filter (fun p => variance_days (schedule p) <? 0) DATA).
Proof.
  intros HD HB.
  assert (Hn : Py.len DATA <> 0).
  { unfold Py.len. destruct DATA; [congruence | simpl; lia]. }
  unfold Analyzer.fetch_data, Server.get_portfolio_summary,
    Server.get_portfolio_health, Server.bind.
  rewrite !(truediv_nonzero _ _ Hn), (truediv_nonzero _ _ HB).
  eexists; split; [reflexivity|]. simpl. auto.
Qed.

(** An empty server makes the summary route raise, and the fetch fail. *)
Lemma fetch_data_empty (now : string) : Analyzer.fetch_data [] now = None.
Proof. reflexivity. Qed.

(** The priorities of the list, in its order. *)
Lemma recommendations_priorities (self : Analyzer.ClarityPPMAnalyzer) :
  map Analyzer.priority (Analyzer.recommendations self) =
    ((if existsb Analyzer.is_critical (Analyzer.projects self) then [1] else [])
     ++ (if count_status "At Risk" (Analyzer.projects self) >? 1 then [2] else [])
     ++ (if Server.Portfolio.projects_over_budget
              (Server.Portfolio.budget (Analyzer.portfolio_health self)) >? 2
         then [3] else []))%list.
Proof.
  unfold Analyzer.recommendations, Analyzer._generate_recommendations,
    Analyzer.critical_projects, Analyzer.at_risk_projects, count_status.
  rewrite truthy_filter.
  fold Analyzer.is_at_risk.
  destruct (existsb Analyzer.is_critical (Analyzer.projects self));
    destruct (Py.len (filter Analyzer.is_at_risk (Analyzer.projects self)) >? 1);
    destruct (Server.Portfolio.projects_over_budget
                (Server.Portfolio.budget (Analyzer.portfolio_health self)) >? 2);
    reflexivity.
Qed.

Lemma emitted_priority (n : Z) (recs : list Analyzer.Recommendation) :
  emitted n recs <-> In n (map Analyzer.priority recs).
Proof.
  unfold emitted. rewrite in_map_iff.
  split; intros [r [H1 H2]]; exists r; auto.
Qed.

(** C4.  For every project collection and portfolio-health aggregate, the
    list of [_generate_recommendations] holds a priority 1 entry exactly when
    some project is Critical, a priority 2 entry exactly when more than one
    project is At Risk, and a priority 3 entry exactly when the aggregate
    count of over-budget projects exceeds 2; the priorities present are in
    ascending order, every combination of the three triggers occurs for some
    fetched collection, and the list is empty when no trigger fires. *)
Theorem recommendations_triggers (self : Analyzer.ClarityPPMAnalyzer) :
  let recs := Analyzer.recommendations self in
  let over := Server.Portfolio.projects_over_budget
                (Server.Portfolio.budget (Analyzer.portfolio_health self)) in
  let P1 := exists p, In p (Analyzer.projects self) /\ has_status "Critical" p in
  let P2 := 1 < count_status "At Risk" (Analyzer.projects self) in
  let P3 := 2 < over in
  (emitted 1 recs <-> P1) /\
  (emitted 2 recs <-> P2) /\
  (emitted 3 recs <-> P3) /\
  StronglySorted Z.lt (map Analyzer.priority recs) /\
  (recs = [] <-> ~ P1 /\ ~ P2 /\ ~ P3) /\
  (forall b1 b2 b3 : bool, exists self',
     Analyzer.fetch_data (trigger_data b1 b2 b3) "" = Some self' /\
     map Analyzer.priority (Analyzer.recommendations self') =
       ((if b1 then [1] else []) ++ (if b2 then [2] else [])
        ++ (if b3 then [3] else []))%list).
Proof.
  intros recs over P1 P2 P3.
  assert (E1 : existsb Analyzer.is_critical (Analyzer.projects self) = true <-> P1)
    by apply existsb_status.
  assert (E2 : (count_status "At Risk" (Analyzer.projects self) >? 1) = true <-> P2)
    by (unfold P2; rewrite Z.gtb_lt; reflexivity).
  assert (E3 : (over >? 2) = true <-> P3)
    by (unfold P3; rewrite Z.gtb_lt; reflexivity).
  assert (R := recommendations_priorities self). fold recs over in R.
  assert (N : recs = [] <-> map Analyzer.priority recs = []).
  { destruct recs; simpl; split; congruence. }
  rewrite !emitted_priority, N, R.
  split; [|split; [|split; [|split; [|split]]]].
  6: { intros b1 b2 b3. destruct b1, b2, b3; eexists; split; vm_compute; reflexivity. }
  all: destruct (existsb Analyzer.is_critical (Analyzer.projects self));
    [assert (H1 := proj1 E1 eq_refl)
    |assert (H1 : ~ P1) by (intro X; apply E1 in X; discriminate)];
    (destruct (count_status "At Risk" (Analyzer.projects self) >? 1);
     [assert (H2 := proj1 E2 eq_refl)
     |assert (H2 : ~ P2) by (intro X; apply E2 in X; discriminate)]);
    (destruct (over >? 2);
     [assert (H3 := proj1 E3 eq_refl)
     |assert (H3 : ~ P3) by (intro X; apply E3 in X; discriminate)]);
    clear E1 E2 E3 R N; simpl;
    try (repeat constructor; fail);
    intuition congruence.
Qed.

(** ** The concern identifier *)

(** The three optional entries, in the order of the list. *)
Lemma key_concerns_parts (self : Analyzer.ClarityPPMAnalyzer) :
  let ps := Analyzer.projects self in
  let crit := filter Analyzer.is_critical ps in
  let risk := filter Analyzer.is_at_risk ps in
  let over := filter (fun p => variance (budget p) <? -10000) ps in
  Analyzer.key_concerns self =
    ((if existsb Analyzer.is_critical ps then
        [{| Analyzer.severity := "Critical";
            Analyzer.concern := Py.str (Py.len crit)
              ++ " Critical Projects Requiring Immediate Attention";
            Analyzer.details := "Projects in critical status: "
              ++ Py.join ", " (map name crit);
            Analyzer.action :=
              "Executive review and intervention required within 48 hours" |}]
      else [])
     ++ (if existsb Analyzer.is_at_risk ps then
           [{| Analyzer.severity := "High";
               Analyzer.concern := Py.str (Py.len risk) ++ " Projects At Risk";
               Analyzer.details := "At-risk projects: " ++ Py.join ", " (map name risk);
               Analyzer.action :=
                 "Enhanced monitoring and corrective action plans needed" |}]
         else [])
     ++ (if existsb (fun p => variance (budget p) <? -10000) ps then
           [{| Analyzer.severity := "High";
               Analyzer.concern := "Significant Budget Overruns";
               Analyzer.details := Py.str (Py.len over)
                 ++ " projects with budget variance exceeding $10K";
               Analyzer.action :=
                 "Financial review and budget reforecast required" |}]
         else []))%list.
Proof.
  intros ps crit risk over.
  unfold Analyzer.key_concerns, Analyzer._identify_key_concerns,
    Analyzer.critical_projects, Analyzer.at_risk_projects.
  rewrite !truthy_filter. fold ps.
  destruct (existsb Analyzer.is_critical ps);
    destruct (existsb Analyzer.is_at_risk ps);
    destruct (existsb (fun p => variance (budget p) <? -10000) ps);
    reflexivity.
Qed.

Lemma existsb_overrun (l : list Project) :
  existsb (fun p => variance (budget p) <? -10000) l = true <->
  exists p, In p l /\ variance (budget p) < -10000.
Proof.
  rewrite existsb_exists.
  split; intros [p [Hin Hp]]; exists p; split; auto; now apply Z.ltb_lt.
Qed.

(** C5.  For every project collection, the list of [_identify_key_concerns]
    is made of three parts in this order: one Critical concern whose details
    name all the Critical projects when there is one, nothing otherwise; one
    High concern whose details name all the At Risk projects when there is
    one, nothing otherwise; one High budget-overrun concern counting the
    projects with budget variance below -10000 when there is one, nothing
    otherwise. *)
Theorem key_concerns_order (self : Analyzer.ClarityPPMAnalyzer) :
  let ps := Analyzer.projects self in
  exists c1 c2 c3 : list Analyzer.Concern,
    Analyzer.key_concerns self = (c1 ++ c2 ++ c3)%list /\
    (((exists p, In p ps /\ has_status "Critical" p) /\
      exists c names, c1 = [c] /\ Analyzer.severity c = "Critical" /\
        Analyzer.details c = "Projects in critical status: " ++ Py.join ", " names /\
        (forall n, In n names <-> exists p, In p ps /\ has_status "Critical" p /\ name p = n))
     \/ ((~ exists p, In p ps /\ has_status "Critical" p) /\ c1 = [])) /\
    (((exists p, In p ps /\ has_status "At Risk" p) /\
      exists c names, c2 = [c] /\ Analyzer.severity c = "High" /\
        Analyzer.details c = "At-risk projects: " ++ Py.join ", " names /\
        (forall n, In n names <-> exists p, In p ps /\ has_status "At Risk" p /\ name p = n))
     \/ ((~ exists p, In p ps /\ has_status "At Risk" p) /\ c2 = [])) /\
    (((exists p, In p ps /\ variance (budget p) < -10000) /\
      exists c, c3 = [c] /\ Analyzer.severity c = "High" /\
        Analyzer.concern c = "Significant Budget Overruns" /\
        Analyzer.details c =
          Py.str (Py.len (filter (fun p => variance (budget p) <? -10000) ps))
            ++ " projects with budget variance exceeding $10K")
     \/ ((~ exists p, In p ps /\ variance (budget p) < -10000) /\ c3 = [])).
Proof.
  intros ps.
  assert (names_of : forall st n,
    In n (map name (filter (fun p => (overall_status (health p) =? st)%string) ps)) <->
    exists p, In p ps /\ has_status st p /\ name p = n).
  { intros st n. rewrite in_map_iff. unfold has_status.
    split.
    - intros [p [Hn Hp]]. apply filter_In in Hp. destruct Hp as [Hin Hs].
      apply String.eqb_eq in Hs. exists p; auto.
    - intros [p [Hin [Hs Hn]]]. exists p. split; [assumption|].
      apply filter_In. split; [assumption|]. now apply String.eqb_eq. }
  do 3 eexists. split; [apply key_concerns_parts|]. fold ps.
  split; [|split].
  - destruct (existsb Analyzer.is_critical ps) eqn:E.
    + left. split; [now apply (existsb_status "Critical")|].
      do 2 eexists. repeat split; try reflexivity; apply (names_of "Critical").
    + right. split; [|reflexivity].
      intro H. apply (existsb_status "Critical") in H.
      unfold Analyzer.is_critical in E. congruence.
  - destruct (existsb Analyzer.is_at_risk ps) eqn:E.
    + left. split; [now apply (existsb_status "At Risk")|].
      do 2 eexists. repeat split; try reflexivity; apply (names_of "At Risk").
    + right. split; [|reflexivity].
      intro H. apply (existsb_status "At Risk") in H.
      unfold Analyzer.is_at_risk in E. congruence.
  - destruct (existsb (fun p => variance (budget p) <? -10000) ps) eqn:E.
    + left. split; [now apply existsb_overrun|].
      eexists. repeat split; reflexivity.
    + right. split; [|reflexivity].
      intro H. apply existsb_overrun in H. congruence.
Qed.

(** C7.  On the five sample projects the concern identifier emits first the
    Critical concern naming "Customer Portal Redesign", the only Critical
    project, then the High concern naming "Digital Transformation Initiative"
    and "Mobile App Development", the two At Risk projects in that order,
    and after them the budget-overrun concern. *)
Theorem sample_key_concerns (ph : Server.Portfolio.Health) :
  let self := {| Analyzer.projects := Server.PROJECTS_DATA;
                 Analyzer.portfolio_health := ph |} in
  map id Server.PROJECTS_DATA = ["PRJ001"; "PRJ002"; "PRJ003"; "PRJ004"; "PRJ005"] /\
  map name (Analyzer.critical_projects self) = ["Customer Portal Redesign"] /\
  map name (Analyzer.at_risk_projects self) =
    ["Digital Transformation Initiative"; "Mobile App Development"] /\
  Analyzer.key_concerns self =
    [ {| Analyzer.severity := "Critical";
         Analyzer.concern := "1 Critical Projects Requiring Immediate Attention";
         Analyzer.details := "Projects in critical status: Customer Portal Redesign";
         Analyzer.action :=
           "Executive review and intervention required within 48 hours" |};
      {| Analyzer.severity := "High";
         Analyzer.concern := "2 Projects At Risk";
         Analyzer.details :=
           "At-risk projects: Digital Transformation Initiative, Mobile App Development";
         Analyzer.action := "Enhanced monitoring and corrective action plans needed" |};
      {| Analyzer.severity := "High";
         Analyzer.concern := "Significant Budget Overruns";
         Analyzer.details := "2 projects with budget variance exceeding $10K";
         Analyzer.action := "Financial review and budget reforecast required" |} ].
Proof.
  intros self. repeat split; vm_compute; reflexivity.
Qed.

Lemma has_concern_critical_iff (self : Analyzer.ClarityPPMAnalyzer) :
  has_concern "Critical" (Analyzer.key_concerns self) <->
  exists p, In p (Analyzer.projects self) /\ has_status "Critical" p.
Proof.
  rewrite <- (existsb_status "Critical").
  change (fun p : Project => (overall_status (health p) =? "Critical")%string)
    with Analyzer.is_critical.
  rewrite key_concerns_parts. unfold has_concern.
  destruct (existsb Analyzer.is_critical (Analyzer.projects self)).
  - split; [reflexivity|]. intros _. eexists. split; [left; reflexivity | reflexivity].
  - split; [|discriminate]. intros [c [Hin Hsev]]. exfalso.
    destruct (existsb Analyzer.is_at_risk (Analyzer.projects self));
      destruct (existsb (fun p => variance (budget p) <? -10000) (Analyzer.projects self));
      simpl in Hin;
      repeat match goal with
      | H : _ \/ _ |- _ => destruct H
      | H : False |- _ => destruct H
      end; subst c; discriminate.
Qed.

(** C9.  In a collection without a Critical project the Critical concern is
    absent, and it is present once a Critical project is inserted anywhere;
    in any collection, the Critical concern is absent once the Critical
    projects are taken out. *)
Theorem key_concerns_monotonic
    (before after all : list Project) (p : Project) (ph : Server.Portfolio.Health)
    (Hnone : forall q, In q (before ++ after) -> ~ has_status "Critical" q)
    (Hp : has_status "Critical" p) :
  ~ has_concern "Critical"
      (Analyzer.key_concerns {| Analyzer.projects := before ++ after;
                                Analyzer.portfolio_health := ph |}) /\
  has_concern "Critical"
      (Analyzer.key_concerns {| Analyzer.projects := before ++ p :: after;
                                Analyzer.portfolio_health := ph |}) /\
  ~ has_concern "Critical"
      (Analyzer.key_concerns
         {| Analyzer.projects := filter (fun q => negb (Analyzer.is_critical q)) all;
            Analyzer.portfolio_health := ph |}).
Proof.
  rewrite !has_concern_critical_iff. simpl.
  split; [|split].
  - intros [q [Hin Hq]]. exact (Hnone q Hin Hq).
  - exists p. split; [|exact Hp]. apply in_or_app. right. left. reflexivity.
  - intros [q [Hin Hq]]. apply filter_In in Hin. destruct Hin as [_ Hneg].
    unfold has_status in Hq. unfold Analyzer.is_critical in Hneg.
    rewrite Hq in Hneg. discriminate.
Qed.

(** The sample data without its Critical project, then with it put back,
    then filtered. *)
Lemma key_concerns_monotonic_witness :
  ~ has_concern "Critical"
      (Analyzer.key_concerns
         {| Analyzer.projects := [Server.PRJ001; Server.PRJ002; Server.PRJ004; Server.PRJ005];
            Analyzer.portfolio_health := sample_health |}) /\
  has_concern "Critical"
      (Analyzer.key_concerns {| Analyzer.projects := Server.PROJECTS_DATA;
                                Analyzer.portfolio_health := sample_health |}) /\
  ~ has_concern "Critical"
      (Analyzer.key_concerns
         {| Analyzer.projects :=
              filter (fun q => negb (Analyzer.is_critical q)) Server.PROJECTS_DATA;
            Analyzer.portfolio_health := sample_health |}).
Proof.
  apply (key_concerns_monotonic [Server.PRJ001; Server.PRJ002]
           [Server.PRJ004; Server.PRJ005] Server.PROJECTS_DATA Server.PRJ003
           sample_health).
  - intros q Hin. unfold has_status.
    simpl in Hin. destruct Hin as [H | [H | [H | [H | []]]]]; subst q; discriminate.
  - reflexivity.
Defined.

(** ** The data provider *)

(** [find] returns the first element that passes the test. *)
Lemma find_first {A : Type} (f : A -> bool) (l : list A) :
  (exists l1 a l2, l = (l1 ++ a :: l2)%list /\ f a = true /\
                   (forall b, In b l1 -> f b = false) /\ find f l = Some a) \/
  ((forall b, In b l -> f b = false) /\ find f l = None).
Proof.
  induction l as [|x l IH]; simpl.
  - right. split; [intros b []|reflexivity].
  - destruct (f x) eqn:E.
    + left. exists [], x, l. repeat split; auto. intros b [].
    + destruct IH as [[l1 [a [l2 [Hl [Ha [Hl1 Hf]]]]]] | [Hall Hf]].
      * left. exists (x :: l1), a, l2. subst l. repeat split; auto.
        intros b [Hb | Hb]; [subst b; exact E | exact (Hl1 b Hb)].
      * right. split; [|exact Hf].
        intros b [Hb | Hb]; [subst b; exact E | exact (Hall b Hb)].
Qed.

(** C8.  For every collection and identifier, [get_project] answers either
    with success, status 200 and the first project of the collection that
    has the requested id, which happens when such a project exists, or with
    the failure body and status 404, which happens when none exists. *)
Theorem get_project_found_iff (DATA : list Project) (now project_id : string) :
  ((exists p, In p DATA /\ id p = project_id) /\
   exists l1 p l2,
     DATA = (l1 ++ p :: l2)%list /\ id p = project_id /\
     (forall q, In q l1 -> id q <> project_id) /\
     Server.get_project DATA now project_id = (Server.body_project true now p, 200))
  \/
  ((~ exists p, In p DATA /\ id p = project_id) /\
   Server.get_project DATA now project_id =
     (Server.body_error false "Project not found", 404)).
Proof.
  unfold Server.get_project.
  destruct (find_first (fun p => (id p =? project_id)%string) DATA)
    as [[l1 [a [l2 [Hl [Ha [Hl1 Hf]]]]]] | [Hall Hf]]; rewrite Hf.
  - apply String.eqb_eq in Ha. left. split.
    + exists a. split; [|exact Ha]. subst DATA. apply in_or_app. right. left. reflexivity.
    + exists l1, a, l2. repeat split; auto.
      intros q Hq. apply String.eqb_neq. exact (Hl1 q Hq).
  - right. split; [|reflexivity].
    intros [p [Hin Hp]]. apply Hall in Hin. apply String.eqb_neq in Hin. contradiction.
Qed.

(** The two answers on the sample data. *)
Lemma get_project_sample (now : string) :
  Server.get_project Server.PROJECTS_DATA now "PRJ003"
    = (Server.body_project true now Server.PRJ003, 200) /\
  Server.get_project Server.PROJECTS_DATA now "PRJ006"
    = (Server.body_error false "Project not found", 404).
Proof. split; reflexivity. Qed.

(** The stated invariant fails on a record the provider serves: PRJ003 has
    22 + 4 + 7 = 33 items against 28 original ones. *)
Lemma served_record_exceeds_scope_bound :
  Server.get_project Server.PROJECTS_DATA "" "PRJ003"
    = (Server.body_project true "" Server.PRJ003, 200) /\
  completed_items (scope Server.PRJ003) + in_progress_items (scope Server.PRJ003)
    + pending_items (scope Server.PRJ003) = 33 /\
  original_scope_items (scope Server.PRJ003) = 28 /\
  ~ stated_invariant Server.PRJ003.
Proof.
  repeat split.
  intros [_ [H _]]. vm_compute in H. apply H. reflexivity.
Qed.

Lemma sample_record_invariant : Forall record_invariant Server.PROJECTS_DATA.
Proof.
  repeat constructor; vm_compute; congruence.
Qed.

(** C6, amended.  Every record the provider serves, in the list of all
    projects or as the answer to a request by id, has its remaining budget
    equal to total less spent, its completed, in-progress and pending items
    summing to at most the original items plus the scope changes, and its
    completion and team utilization within 0 and 100; the bound by the
    original items alone holds for PRJ001, PRJ002 and PRJ004. *)
Theorem served_records_invariant (now project_id : string) :
  Forall record_invariant
    (Server.projects_data (fst (Server.get_projects Server.PROJECTS_DATA now))) /\
  match fst (Server.get_project Server.PROJECTS_DATA now project_id) with
  | Server.body_project _ _ p => record_invariant p
  | Server.body_error _ _ => True
  end /\
  Forall stated_invariant [Server.PRJ001; Server.PRJ002; Server.PRJ004].
Proof.
  split; [exact sample_record_invariant|]. split.
  - unfold Server.get_project.
    destruct (find_first (fun p => (id p =? project_id)%string) Server.PROJECTS_DATA)
      as [[l1 [p [l2 [Hl [_ [_ E]]]]]] | [_ E]]; rewrite E; simpl; [|exact I].
    assert (Hin : In p Server.PROJECTS_DATA).
    { rewrite Hl. apply in_or_app. right. left. reflexivity. }
    exact (proj1 (Forall_forall _ _) sample_record_invariant p Hin).
  - repeat constructor; vm_compute; congruence.
Qed.

(** ** The two notions of a project behind schedule *)

(** Counting with a stronger test counts fewer elements, and as many only
    when the two tests agree on the list. *)
Lemma len_filter_le {A : Type} (f g : A -> bool) (l : list A) :
  (forall a, g a = true -> f a = true) ->
  Py.len (filter g l) <= Py.len (filter f l) /\
  (Py.len (filter g l) <> Py.len (filter f l) <->
   exists a, In a l /\ f a = true /\ g a = false).
Proof.
  intros Hgf. unfold Py.len.
  induction l as [|x l [IHle IHne]]; simpl.
  - split; [lia|]. split; [congruence | intros [a [[] _]]].
  - assert (Hx := Hgf x).
    destruct (g x) eqn:Eg; destruct (f x) eqn:Ef; cbn [List.length].
    + split; [lia|]. split.
      * intros Hne. destruct (proj1 IHne) as [a [Hin Ha]]; [lia|]. exists a; auto.
      * intros [a [[Hax | Hin] [Hfa Hga]]]; [subst a; congruence|].
        assert (Z.of_nat (List.length (filter g l)) <> Z.of_nat (List.length (filter f l)))
          by (apply IHne; exists a; auto).
        lia.
    + discriminate (Hx eq_refl).
    + split; [lia|]. split; [|lia]. intros _. exists x; auto.
    + split; [lia|]. split.
      * intros Hne. destruct (proj1 IHne Hne) as [a [Hin Ha]]. exists a; auto.
      * intros [a [[Hax | Hin] [Hfa Hga]]]; [subst a; congruence|].
        apply IHne; exists a; auto.
Qed.

(** C10.  For a server holding at least one project and a total budget
    that is not zero, so that the fetch succeeds, the health aggregate
    counts as behind schedule the projects with [variance_days < 0], the
    timeline analysis of the analyzer fetched from it counts those with
    [variance_days < -5]; the second count is at most the first, they differ
    exactly when some project has [-5 <= variance_days < 0], and they do
    differ for the collection of one project with [variance_days = -3]. *)
Theorem behind_schedule_cutoffs (DATA : list Project) (now : string)
    (Hdata : DATA <> [])
    (Hbudget : Py.sumZ (map (fun p => total (budget p)) DATA) <> 0) :
  (exists self,
     Analyzer.fetch_data DATA now = Some self /\
     let provider := Server.Portfolio.projects_behind
                       (Server.Portfolio.schedule (Analyzer.portfolio_health self)) in
     let analyzer := Analyzer.projects_behind (Analyzer.timeline_analysis self) in
     provider = Py.len (filter (fun p => variance_days (schedule p) <? 0) DATA) /\
     analyzer = Py.len (filter (fun p => variance_days (schedule p) <? -5) DATA) /\
     analyzer <= provider /\
     (analyzer <> provider <->
      exists p, In p DATA /\ -5 <= variance_days (schedule p) < 0)) /\
  (exists self,
     Analyzer.fetch_data [with_variance_days (-3) Server.PRJ002] now = Some self /\
     Server.Portfolio.projects_behind
       (Server.Portfolio.schedule (Analyzer.portfolio_health self)) = 1 /\
     Analyzer.projects_behind (Analyzer.timeline_analysis self) = 0).
Proof.
  split.
  - destruct (fetch_data_spec DATA now Hdata Hbudget) as [self [Hf [Hp [_ Hb]]]].
    exists self. split; [exact Hf|]. cbv zeta.
    rewrite Hb. unfold Analyzer.timeline_analysis, Analyzer._analyze_portfolio_timeline.
    cbn [Analyzer.projects_behind]. rewrite Hp.
    destruct (len_filter_le (fun p => variance_days (schedule p) <? 0)
                (fun p => variance_days (schedule p) <? -5) DATA) as [Hle Hne].
    { intros a Ha. apply Z.ltb_lt in Ha. apply Z.ltb_lt. lia. }
    repeat split; auto.
    + intros H. apply Hne in H. destruct H as [a [Hin [Ha Hb']]].
      apply Z.ltb_lt in Ha. apply Z.ltb_ge in Hb'. exists a. split; [assumption | lia].
    + intros [a [Hin Ha]]. apply Hne. exists a. split; [assumption|].
      split; [apply Z.ltb_lt | apply Z.ltb_ge]; lia.
  - destruct (fetch_data_spec [with_variance_days (-3) Server.PRJ002] now)
      as [self [Hf [Hp [_ Hb]]]]; [discriminate | discriminate |].
    exists self. split; [exact Hf|]. split; [rewrite Hb; reflexivity|].
    unfold Analyzer.timeline_analysis, Analyzer._analyze_portfolio_timeline.
    cbn [Analyzer.projects_behind]. rewrite Hp. reflexivity.
Qed.

(** The sample data: three projects are behind by either count
    (-12, -25 and -8 days). *)
Lemma behind_schedule_cutoffs_witness :
  Server.PROJECTS_DATA <> [] /\
  Py.sumZ (map (fun p => total (budget p)) Server.PROJECTS_DATA) <> 0 /\
  exists self,
    Analyzer.fetch_data Server.PROJECTS_DATA "" = Some self /\
    Server.Portfolio.projects_behind
      (Server.Portfolio.schedule (Analyzer.portfolio_health self)) = 3 /\
    Analyzer.projects_behind (Analyzer.timeline_analysis self) = 3.
Proof.
  assert (Hne : Server.PROJECTS_DATA <> []) by discriminate.
  assert (Hb : Py.sumZ (map (fun p => total (budget p)) Server.PROJECTS_DATA) <> 0)
    by discriminate.
  split; [exact Hne|]. split; [exact Hb|].
  destruct (behind_schedule_cutoffs Server.PROJECTS_DATA "" Hne Hb)
    as [[self [Hf [Hp [Ha _]]]] _].
  exists self. split; [exact Hf|]. split; [rewrite Hp | rewrite Ha]; reflexivity.
Defined.


(** * Further properties: the routes and the rest of the analyzer *)

(** ** Sums and counts *)

Lemma sumZ_acc (l : list Z) (a : Z) : fold_left Z.add l a = a + Py.sumZ l.
Proof.
  unfold Py.sumZ. revert a.
  induction l as [|x l IH]; intros a; simpl; [lia|].
  rewrite (IH (a + x)), (IH x). lia.
Qed.

Lemma sumZ_cons (x : Z) (l : list Z) : Py.sumZ (x :: l) = x + Py.sumZ l.
Proof. unfold Py.sumZ at 1. simpl. apply sumZ_acc. Qed.

Lemma len_cons {A : Type} (x : A) (l : list A) : Py.len (x :: l) = 1 + Py.len l.
Proof. unfold Py.len. simpl List.length. lia. Qed.

Lemma len_zero_iff {A : Type} (l : list A) : Py.len l = 0 <-> l = [].
Proof.
  destruct l; [split; reflexivity|].
  rewrite len_cons. unfold Py.len. split; [lia | discriminate].
Qed.

Lemma len_filter_bounds {A : Type} (f : A -> bool) (l : list A) :
  0 <= Py.len (filter f l) <= Py.len l.
Proof.
  induction l as [|x l IH]; simpl; [unfold Py.len; simpl; lia|].
  destruct (f x); rewrite !len_cons; lia.
Qed.

(** ** Rounding to a double keeps integer bounds *)

Lemma round_half_even_nonneg (y : Q) : (0 <= y)%Q -> 0 <= Py.round_half_even y.
Proof.
  intros H. unfold Py.round_half_even.
  assert (Ha : 0 <= Qnum y) by (unfold Qle in H; simpl in H; lia).
  assert (Hb : 0 < QDen y) by reflexivity.
  assert (Hf : 0 <= Qnum y / QDen y) by (apply Z.div_pos; assumption).
  destruct (2 * (Qnum y mod QDen y) ?= QDen y); [destruct (Z.even _)| |]; lia.
Qed.

Lemma round_half_even_le (y : Q) (M : Z) :
  (y <= inject_Z M)%Q -> Py.round_half_even y <= M.
Proof.
  intros H. unfold Py.round_half_even.
  assert (Hb : 0 < QDen y) by reflexivity.
  assert (Ha : Qnum y <= M * QDen y) by (unfold Qle in H; simpl in H; lia).
  assert (Hdm := Z.div_mod (Qnum y) (QDen y) ltac:(lia)).
  assert (Hr := Z.mod_pos_bound (Qnum y) (QDen y) Hb).
  set (f := Qnum y / QDen y) in *. set (r := Qnum y mod QDen y) in *.
  assert (Hf : f <= M) by nia.
  destruct (Z.eq_dec f M) as [E | E].
  - assert (r = 0) by nia.
    replace (2 * r ?= QDen y) with Lt; [lia|].
    symmetry. apply Z.compare_lt_iff. lia.
  - destruct (2 * r ?= QDen y); [destruct (Z.even f)| |]; lia.
Qed.

Lemma ilog2_le (a b : positive) (N : Z) :
  Zpos a <= N * Zpos b -> N < 2 ^ 53 -> Py.ilog2 a b <= 52.
Proof.
  intros Hab HN. unfold Py.ilog2.
  set (la := Z.log2 (Zpos a)). set (lb := Z.log2 (Zpos b)).
  assert (Hla := Z.log2_spec (Zpos a) ltac:(lia)). fold la in Hla.
  assert (Hlb := Z.log2_spec (Zpos b) ltac:(lia)). fold lb in Hlb.
  assert (Hla0 : 0 <= la) by apply Z.log2_nonneg.
  assert (Hlb0 : 0 <= lb) by apply Z.log2_nonneg.
  destruct (Z_le_gt_dec (la - lb) 52) as [Hk | Hk].
  - destruct (1 <=? _); lia.
  - assert (Hpow : 2 ^ la = 2 ^ lb * 2 ^ (la - lb)).
    { rewrite <- Z.pow_add_r by lia. f_equal. lia. }
    assert (Hsucc : 2 ^ (Z.succ lb) = 2 * 2 ^ lb) by (apply Z.pow_succ_r; lia).
    assert (Hlbp : 0 < 2 ^ lb) by (apply Z.pow_pos_nonneg; lia).
    assert (Habs : Zpos a < 2 ^ 53 * Zpos b) by nia.
    destruct (Z.eq_dec (la - lb) 53) as [E | E].
    + rewrite E.
      replace (1 <=? Qnum (Py.scale2 a b 53) / QDen (Py.scale2 a b 53)) with false; [lia|].
      symmetry. apply Z.leb_gt.
      unfold Py.scale2. change (0 <=? 53) with true. cbv iota. cbn [Qnum Qden].
      apply Z.div_lt_upper_bound; [reflexivity|].
      rewrite Pos2Z.inj_mul, Z2Pos.id by (apply Z.pow_pos_nonneg; lia). lia.
    + exfalso.
      assert (H54 : 2 ^ 54 <= 2 ^ (la - lb)) by (apply Z.pow_le_mono_r; lia).
      assert (2 ^ 54 = 2 * 2 ^ 53) by reflexivity.
      nia.
Qed.

Lemma Qmake_nonneg (n : Z) (d : positive) : 0 <= n -> (0 <= n # d)%Q.
Proof. intros H. unfold Qle. cbn [Qnum Qden]. lia. Qed.

Lemma Qmake_le_int (n : Z) (d : positive) (M : Z) :
  n <= M * Zpos d -> (n # d <= inject_Z M)%Q.
Proof. intros H. unfold Qle. cbn [Qnum Qden inject_Z]. lia. Qed.

Lemma fl_pos_nonneg (a b : positive) : (0 <= Py.fl_pos a b)%Q.
Proof.
  unfold Py.fl_pos.
  set (q := Z.max (Py.ilog2 a b - 52) (-1074)).
  assert (Hm : 0 <= Py.round_half_even (Py.scale2 a b q)).
  { apply round_half_even_nonneg. unfold Py.scale2.
    destruct (0 <=? q); apply Qmake_nonneg; [lia|].
    assert (0 <= 2 ^ (- q)) by (apply Z.pow_nonneg; lia). nia. }
  destruct (0 <=? q) eqn:E.
  - apply Z.leb_le in E.
    assert (0 <= 2 ^ q) by (apply Z.pow_nonneg; lia).
    apply Qmake_nonneg. nia.
  - rewrite Qred_correct. apply Qmake_nonneg. exact Hm.
Qed.

Lemma fl_pos_le (a b : positive) (N : Z) :
  Zpos a <= N * Zpos b -> N < 2 ^ 53 -> (Py.fl_pos a b <= inject_Z N)%Q.
Proof.
  intros Hab HN.
  assert (He := ilog2_le a b N Hab HN).
  unfold Py.fl_pos.
  set (q := Z.max (Py.ilog2 a b - 52) (-1074)).
  assert (Hq : q <= 0) by lia.
  destruct (0 <=? q) eqn:E.
  - apply Z.leb_le in E. assert (Hq0 : q = 0) by lia. rewrite Hq0.
    assert (Hm : Py.round_half_even (Py.scale2 a b 0) <= N).
    { apply round_half_even_le. unfold Py.scale2. change (0 <=? 0) with true. cbv iota.
      apply Qmake_le_int. change (Z.to_pos (2 ^ 0)) with 1%positive.
      rewrite Pos.mul_1_r. exact Hab. }
    apply Qmake_le_int. change (2 ^ 0) with 1. lia.
  - apply Z.leb_gt in E.
    assert (HP : 0 < 2 ^ (- q)) by (apply Z.pow_pos_nonneg; lia).
    assert (Hm : Py.round_half_even (Py.scale2 a b q) <= N * 2 ^ (- q)).
    { apply round_half_even_le. unfold Py.scale2.
      replace (0 <=? q) with false by (symmetry; apply Z.leb_gt; lia).
      apply Qmake_le_int. nia. }
    rewrite Qred_correct. apply Qmake_le_int.
    rewrite Z2Pos.id by exact HP. exact Hm.
Qed.

Lemma fl_nonneg (x : Q) : (0 <= x)%Q -> (0 <= Py.fl x)%Q.
Proof.
  intros H. unfold Py.fl. destruct x as [n d]. cbn [Qnum Qden].
  destruct n; [apply Qle_refl | apply fl_pos_nonneg |].
  unfold Qle in H. cbn [Qnum Qden] in H. lia.
Qed.

Lemma fl_le_int (x : Q) (N : Z) :
  (0 <= x)%Q -> (x <= inject_Z N)%Q -> N < 2 ^ 53 -> (Py.fl x <= inject_Z N)%Q.
Proof.
  intros H0 HN Hb. unfold Py.fl. destruct x as [n d]. cbn [Qnum Qden].
  destruct n.
  - unfold Qle in *. cbn [Qnum Qden inject_Z] in *. lia.
  - apply fl_pos_le; [|exact Hb]. unfold Qle in HN. cbn [Qnum Qden inject_Z] in HN. lia.
  - unfold Qle in H0. cbn [Qnum Qden] in H0. lia.
Qed.

(** The utilization of a spent amount within a positive total lies within
    0 and 100, the two roundings included. *)
Lemma utilization_bounds (spent total : Z) :
  0 <= spent <= total -> 0 < total ->
  (0 <= Py.fmul (Py.fl (inject_Z spent / inject_Z total)) 100 <= 100)%Q.
Proof.
  intros Hs Ht.
  assert (HtQ : (0 < inject_Z total)%Q) by (unfold Qlt; cbn [Qnum Qden inject_Z]; lia).
  assert (H0 : (0 <= inject_Z spent / inject_Z total)%Q).
  { apply Qle_shift_div_l; [exact HtQ|].
    unfold Qle. cbn [Qnum Qden inject_Z Qmult]. lia. }
  assert (H1 : (inject_Z spent / inject_Z total <= inject_Z 1)%Q).
  { apply Qle_shift_div_r; [exact HtQ|].
    unfold Qle. cbn [Qnum Qden inject_Z Qmult]. lia. }
  assert (R0 := fl_nonneg _ H0).
  assert (R1 := fl_le_int _ 1 H0 H1 ltac:(reflexivity)).
  set (ratio := Py.fl (inject_Z spent / inject_Z total)) in *.
  change (inject_Z 1) with 1%Q in R1.
  unfold Py.fmul. split.
  - apply fl_nonneg. nra.
  - apply (fl_le_int _ 100); [nra | change (inject_Z 100) with 100%Q; nra | reflexivity].
Qed.

(** ** The summary route *)

(** X1.  [get_portfolio_summary] raises [ZeroDivisionError] exactly when
    the collection is empty or its total budget is zero; otherwise it
    answers 200 with the number of projects and the total budget, and the
    utilization it reports is the double quotient of the spent amount by
    the total budget, multiplied by 100: a number within 0 and 100 when
    the spent amount is within 0 and the total budget. *)
Theorem portfolio_summary_outcome (DATA : list Project) (now : string) :
  let total_budget := Py.sumZ (map (fun p => total (budget p)) DATA) in
  let total_spent := Py.sumZ (map (fun p => spent (budget p)) DATA) in
  ((DATA = [] \/ total_budget = 0) /\
   Server.get_portfolio_summary DATA now = inl Py.ZeroDivisionError)
  \/
  (DATA <> [] /\ total_budget <> 0 /\
   exists body,
     Server.get_portfolio_summary DATA now = inr (body, 200) /\
     Server.Summary.total_projects (Server.summary_data body) = Py.len DATA /\
     Server.Summary.total (Server.Summary.budget (Server.summary_data body)) = total_budget /\
     Server.Summary.utilization_percentage
       (Server.Summary.budget (Server.summary_data body))
       = Py.fmul (Py.fl (inject_Z total_spent / inject_Z total_budget)) 100 /\
     (0 <= total_spent <= total_budget ->
      (0 <= Server.Summary.utilization_percentage
              (Server.Summary.budget (Server.summary_data body)) <= 100)%Q)).
Proof.
  intros total_budget total_spent.
  unfold Server.get_portfolio_summary, Server.bind.
  fold total_budget total_spent.
  destruct (Z.eq_dec (Py.len DATA) 0) as [Hlen | Hlen].
  - left. split; [left; now apply len_zero_iff|]. rewrite Hlen. reflexivity.
  - rewrite !(truediv_nonzero _ _ Hlen).
    destruct (Z.eq_dec total_budget 0) as [Hb | Hb].
    + left. split; [right; exact Hb|]. rewrite Hb. reflexivity.
    + right. rewrite (truediv_nonzero _ _ Hb).
      split; [intro E; apply Hlen; now apply len_zero_iff|].
      split; [exact Hb|].
      eexists. split; [reflexivity|]. cbn [Server.summary_data Server.Summary.total_projects
        Server.Summary.budget Server.Summary.total Server.Summary.utilization_percentage].
      repeat (split; [reflexivity|]).
      intros Hs. apply utilization_bounds; lia.
Qed.

(** The sample data: 1905000 spent of 2520000, the double
    75.59523809523809. *)
Lemma portfolio_summary_sample :
  exists body,
    Server.get_portfolio_summary Server.PROJECTS_DATA "" = inr (body, 200) /\
    Py.repr_float (Server.Summary.utilization_percentage
                     (Server.Summary.budget (Server.summary_data body)))
      = "75.59523809523809".
Proof. eexists. split; [reflexivity | vm_compute; reflexivity]. Qed.

(** What a successful summary holds. *)
Lemma summary_fields (DATA : list Project) (now : string)
    (body : Server.summary_body) (code : Z) :
  Server.get_portfolio_summary DATA now = inr (body, code) ->
  let d := Server.summary_data body in
  code = 200 /\
  Server.Summary.total_projects d = Py.len DATA /\
  Server.Summary.total (Server.Summary.budget d)
    = Py.sumZ (map (fun p => total (budget p)) DATA) /\
  Server.Summary.spent (Server.Summary.budget d)
    = Py.sumZ (map (fun p => spent (budget p)) DATA) /\
  Server.Summary.remaining (Server.Summary.budget d)
    = Server.Summary.total (Server.Summary.budget d)
      - Server.Summary.spent (Server.Summary.budget d) /\
  Server.Summary.on_track (Server.Summary.status_distribution d)
    = count_status "On Track" DATA /\
  Server.Summary.at_risk (Server.Summary.status_distribution d)
    = count_status "At Risk" DATA /\
  Server.Summary.critical (Server.Summary.status_distribution d)
    = count_status "Critical" DATA.
Proof.
  unfold Server.get_portfolio_summary, Server.bind.
  destruct (Py.truediv _ _); [discriminate|].
  destruct (Py.truediv _ _); [discriminate|].
  destruct (Py.truediv _ _); [discriminate|].
  intros H. injection H as Hb Hc. subst body code. cbv zeta.
  repeat split.
Qed.

Lemma status_counts (l : list Project) :
  count_status "On Track" l + count_status "At Risk" l + count_status "Critical" l
    <= Py.len l /\
  (count_status "On Track" l + count_status "At Risk" l + count_status "Critical" l
     = Py.len l <->
   forall p, In p l ->
     has_status "On Track" p \/ has_status "At Risk" p \/ has_status "Critical" p).
Proof.
  unfold count_status, has_status.
  induction l as [|x l [IHle IHeq]].
  - split; [reflexivity|]. split; [intros _ p [] | reflexivity].
  - assert (B1 := len_filter_bounds
      (fun p => (overall_status (health p) =? "On Track")%string) l).
    assert (B2 := len_filter_bounds
      (fun p => (overall_status (health p) =? "At Risk")%string) l).
    assert (B3 := len_filter_bounds
      (fun p => (overall_status (health p) =? "Critical")%string) l).
    simpl filter.
    destruct (String.eqb_spec (overall_status (health x)) "On Track") as [E1 | E1];
      destruct (String.eqb_spec (overall_status (health x)) "At Risk") as [E2 | E2];
      destruct (String.eqb_spec (overall_status (health x)) "Critical") as [E3 | E3];
      try (rewrite E1 in E2; discriminate);
      try (rewrite E1 in E3; discriminate);
      try (rewrite E2 in E3; discriminate);
      rewrite !len_cons; (split; [lia|]).
    1-3: split;
      [ intros H p [Hp | Hp]; [subst p; tauto | apply IHeq; [lia | exact Hp]]
      | intros H;
        assert (Hl : forall p, In p l ->
                  overall_status (health p) = "On Track" \/
                  overall_status (health p) = "At Risk" \/
                  overall_status (health p) = "Critical")
          by (intros p Hp; apply H; right; exact Hp);
        apply IHeq in Hl; lia ].
    split; [lia|].
    intros H. destruct (H x (or_introl eq_refl)) as [? | [? | ?]]; contradiction.
Qed.

(** X2.  In a summary that was computed, the three status counts add up to
    at most the number of projects, and to exactly that number when every
    project is On Track, At Risk or Critical and only then. *)
Theorem summary_status_distribution (DATA : list Project) (now : string)
    (body : Server.summary_body) (code : Z)
    (Hsummary : Server.get_portfolio_summary DATA now = inr (body, code)) :
  let d := Server.summary_data body in
  let counted :=
    Server.Summary.on_track (Server.Summary.status_distribution d)
    + Server.Summary.at_risk (Server.Summary.status_distribution d)
    + Server.Summary.critical (Server.Summary.status_distribution d) in
  counted <= Server.Summary.total_projects d /\
  (counted = Server.Summary.total_projects d <->
   forall p, In p DATA ->
     has_status "On Track" p \/ has_status "At Risk" p \/ has_status "Critical" p).
Proof.
  destruct (summary_fields _ _ _ _ Hsummary) as [_ [Hn [_ [_ [_ [H1 [H2 H3]]]]]]].
  cbv zeta. rewrite H1, H2, H3, Hn. apply status_counts.
Qed.

(** The sample data: 2 + 2 + 1 of 5. *)
Lemma summary_status_distribution_witness :
  exists body,
    Server.get_portfolio_summary Server.PROJECTS_DATA "" = inr (body, 200) /\
    Server.Summary.on_track (Server.Summary.status_distribution (Server.summary_data body))
    + Server.Summary.at_risk (Server.Summary.status_distribution (Server.summary_data body))
    + Server.Summary.critical (Server.Summary.status_distribution (Server.summary_data body))
    <= Server.Summary.total_projects (Server.summary_data body).
Proof.
  eexists. split; [reflexivity|].
  exact (proj1 (summary_status_distribution Server.PROJECTS_DATA "" _ 200 eq_refl)).
Defined.

Lemma sumZ_sub (A : Type) (f g : A -> Z) (l : list A) :
  Py.sumZ (map f l) - Py.sumZ (map g l) = Py.sumZ (map (fun a => f a - g a) l).
Proof.
  induction l as [|x l IH]; [reflexivity|].
  simpl map. rewrite !sumZ_cons. lia.
Qed.

Lemma sumZ_ext_in (A : Type) (f g : A -> Z) (l : list A) :
  (forall a, In a l -> f a = g a) -> Py.sumZ (map f l) = Py.sumZ (map g l).
Proof.
  intros H. f_equal. apply map_ext_in. exact H.
Qed.

Lemma len_map {A B : Type} (g : A -> B) (l : list A) : Py.len (map g l) = Py.len l.
Proof. unfold Py.len. now rewrite length_map. Qed.

Lemma len_filter_map {A B : Type} (P : B -> bool) (g : A -> B) (l : list A) :
  Py.len (filter P (map g l)) = Py.len (filter (fun a => P (g a)) l).
Proof.
  induction l as [|x l IH]; [reflexivity|].
  simpl. destruct (P (g x)); rewrite ?len_cons, IH; reflexivity.
Qed.

(** The summary of a collection is that of the collection with any other
    [remaining] in its records. *)
Lemma summary_ignores_remaining (DATA : list Project) (now : string)
    (r : Project -> Z) :
  Server.get_portfolio_summary (map (fun p => with_budget_remaining (r p) p) DATA) now
    = Server.get_portfolio_summary DATA now.
Proof.
  unfold Server.get_portfolio_summary.
  rewrite !map_map, !len_filter_map, len_map. reflexivity.
Qed.

(** X3.  The summary computes the remaining budget as the total budget
    less the spent amount and never reads the records' own [remaining]:
    giving the records any other [remaining] leaves the whole summary
    unchanged.  The value agrees with the sum of the records' [remaining]
    when every record has [remaining = total - spent]. *)
Theorem summary_remaining_agrees (DATA : list Project) (now : string)
    (body : Server.summary_body) (code : Z)
    (Hsummary : Server.get_portfolio_summary DATA now = inr (body, code))
    (Hrecords : forall p, In p DATA ->
                  remaining (budget p) = total (budget p) - spent (budget p)) :
  Server.Summary.remaining (Server.Summary.budget (Server.summary_data body))
    = Py.sumZ (map (fun p => total (budget p)) DATA)
      - Py.sumZ (map (fun p => spent (budget p)) DATA) /\
  (forall r : Project -> Z,
     Server.get_portfolio_summary (map (fun p => with_budget_remaining (r p) p) DATA) now
       = inr (body, code)) /\
  Server.Summary.remaining (Server.Summary.budget (Server.summary_data body))
    = Py.sumZ (map (fun p => remaining (budget p)) DATA).
Proof.
  destruct (summary_fields _ _ _ _ Hsummary) as [_ [_ [Ht [Hs [Hr _]]]]].
  cbv zeta in Hr. split; [rewrite Hr, Ht, Hs; reflexivity|].
  split; [intros r; rewrite summary_ignores_remaining; exact Hsummary|].
  rewrite Hr, Ht, Hs, sumZ_sub.
  apply sumZ_ext_in. intros p Hp. symmetry. exact (Hrecords p Hp).
Qed.

(** The sample data, whose records are consistent: 615000 remains, also
    when every record claims that nothing does. *)
Lemma summary_remaining_agrees_witness :
  exists body,
    Server.get_portfolio_summary Server.PROJECTS_DATA "" = inr (body, 200) /\
    Server.Summary.remaining (Server.Summary.budget (Server.summary_data body))
      = 125000 + 170000 + 15000 + 195000 + 110000 /\
    Server.get_portfolio_summary
      (map (fun p => with_budget_remaining 0 p) Server.PROJECTS_DATA) ""
      = inr (body, 200).
Proof.
  eexists. split; [reflexivity|].
  assert (Hrecords : forall p, In p Server.PROJECTS_DATA ->
            remaining (budget p) = total (budget p) - spent (budget p)).
  { intros p Hp. simpl in Hp.
    destruct Hp as [H | [H | [H | [H | [H | []]]]]]; subst p; reflexivity. }
  destruct (summary_remaining_agrees Server.PROJECTS_DATA "" _ 200 eq_refl Hrecords)
    as [_ [Hany Hsum]].
  split; [rewrite Hsum; reflexivity | exact (Hany (fun _ => 0))].
Defined.

(** ** The health route *)

(** What a successful health aggregate holds. *)
Lemma health_fields (DATA : list Project) (now : string)
    (body : Server.health_body) (code : Z) :
  Server.get_portfolio_health DATA now = inr (body, code) ->
  let h := Server.health_data body in
  code = 200 /\
  Server.Portfolio.projects_with_variance (Server.Portfolio.scope h)
    = Py.len (filter (fun p => Py.Qgtb (scope_variance_percentage (scope p)) 5) DATA) /\
  Server.Portfolio.projects_over_budget (Server.Portfolio.budget h)
    = Py.len (filter (fun p => variance (budget p) <? 0) DATA) /\
  Server.Portfolio.total_variance (Server.Portfolio.budget h)
    = Py.sumZ (map (fun p => variance (budget p)) DATA) /\
  Server.Portfolio.projects_behind (Server.Portfolio.schedule h)
    = Py.len (filter (fun p => variance_days (schedule p) <? 0) DATA).
Proof.
  unfold Server.get_portfolio_health, Server.bind.
  destruct (Py.truediv _ _); [discriminate|].
  destruct (Py.truediv _ _); [discriminate|].
  destruct (Py.truediv _ _); [discriminate|].
  intros H. injection H as Hb Hc. subst body code. cbv zeta.
  repeat split.
Qed.

(** X4.  [get_portfolio_health] raises [ZeroDivisionError] exactly when
    the collection is empty; otherwise it answers 200 and each of its three
    counts lies between 0 and the number of projects. *)
Theorem portfolio_health_outcome (DATA : list Project) (now : string) :
  (DATA = [] /\ Server.get_portfolio_health DATA now = inl Py.ZeroDivisionError)
  \/
  (DATA <> [] /\
   exists body,
     Server.get_portfolio_health DATA now = inr (body, 200) /\
     let h := Server.health_data body in
     0 <= Server.Portfolio.projects_with_variance (Server.Portfolio.scope h) <= Py.len DATA /\
     0 <= Server.Portfolio.projects_over_budget (Server.Portfolio.budget h) <= Py.len DATA /\
     0 <= Server.Portfolio.projects_behind (Server.Portfolio.schedule h) <= Py.len DATA).
Proof.
  destruct DATA as [|x l] eqn:E; [left; split; reflexivity|].
  right. split; [discriminate|]. rewrite <- E.
  assert (Hlen : Py.len DATA <> 0).
  { intro H. apply len_zero_iff in H. congruence. }
  destruct (Server.get_portfolio_health DATA now) as [e | [body code]] eqn:H.
  - exfalso. revert H. unfold Server.get_portfolio_health, Server.bind.
    rewrite !(truediv_nonzero _ _ Hlen). discriminate.
  - destruct (health_fields _ _ _ _ H) as [Hc [H1 [H2 [_ H3]]]].
    subst code. exists body. split; [reflexivity|]. cbv zeta in *.
    rewrite H1, H2, H3. repeat split; apply len_filter_bounds.
Qed.

Lemma sumZ_nonneg (A : Type) (f : A -> Z) (l : list A) :
  Py.len (filter (fun a => f a <? 0) l) = 0 -> 0 <= Py.sumZ (map f l).
Proof.
  induction l as [|x l IH]; [intros _; reflexivity|].
  simpl filter. simpl map. rewrite sumZ_cons.
  destruct (Z.ltb_spec (f x) 0) as [Hx | Hx].
  - rewrite len_cons. assert (B := len_filter_bounds (fun a => f a <? 0) l). lia.
  - intros H. specialize (IH H). lia.
Qed.

(** X5.  In a health aggregate that was computed, a negative total budget
    variance comes with at least one project counted as over budget. *)
Theorem negative_total_variance_counted (DATA : list Project) (now : string)
    (body : Server.health_body) (code : Z)
    (Hhealth : Server.get_portfolio_health DATA now = inr (body, code))
    (Hneg : Server.Portfolio.total_variance
              (Server.Portfolio.budget (Server.health_data body)) < 0) :
  1 <= Server.Portfolio.projects_over_budget
         (Server.Portfolio.budget (Server.health_data body)).
Proof.
  destruct (health_fields _ _ _ _ Hhealth) as [_ [_ [Ho [Ht _]]]].
  cbv zeta in Ho, Ht. rewrite Ht in Hneg. rewrite Ho.
  assert (B := len_filter_bounds (fun p => variance (budget p) <? 0) DATA).
  destruct (Z.eq_dec (Py.len (filter (fun p => variance (budget p) <? 0) DATA)) 0)
    as [H0 | H0]; [|lia].
  apply (sumZ_nonneg _ (fun p => variance (budget p))) in H0. lia.
Qed.

(** The sample data: a total variance of -25000, three projects over budget. *)
Lemma negative_total_variance_counted_witness :
  exists body,
    Server.get_portfolio_health Server.PROJECTS_DATA "" = inr (body, 200) /\
    Server.Portfolio.total_variance
      (Server.Portfolio.budget (Server.health_data body)) = -25000 /\
    1 <= Server.Portfolio.projects_over_budget
           (Server.Portfolio.budget (Server.health_data body)).
Proof.
  eexists. split; [reflexivity|]. split; [reflexivity|].
  apply (negative_total_variance_counted Server.PROJECTS_DATA "" _ 200 eq_refl).
  reflexivity.
Defined.

(** ** Listing and looking up *)

Lemma find_unique (DATA : list Project) (p : Project) :
  NoDup (map id DATA) -> In p DATA ->
  find (fun q => (id q =? id p)%string) DATA = Some p.
Proof.
  induction DATA as [|x l IH]; intros Hnd Hin; [destruct Hin|].
  simpl map in Hnd. inversion Hnd as [|? ? Hx Hl]; subst.
  simpl. destruct (String.eqb_spec (id x) (id p)) as [E | E].
  - destruct Hin as [Hp | Hp]; [now subst|].
    exfalso. apply Hx. rewrite E. apply in_map. exact Hp.
  - destruct Hin as [Hp | Hp]; [subst; contradiction|].
    apply IH; assumption.
Qed.

(** X6.  When the ids of the collection are pairwise distinct, every
    project that [get_projects] lists is the one [get_project] returns for
    its id. *)
Theorem listed_project_is_found (DATA : list Project) (now : string) (p : Project)
    (Hdistinct : NoDup (map id DATA))
    (Hlisted : In p (Server.projects_data (fst (Server.get_projects DATA now)))) :
  Server.get_project DATA now (id p) = (Server.body_project true now p, 200).
Proof.
  unfold Server.get_project. simpl in Hlisted.
  rewrite (find_unique DATA p Hdistinct Hlisted). reflexivity.
Qed.

(** The sample data has five distinct ids; PRJ004 is found by its id. *)
Lemma listed_project_is_found_witness :
  NoDup (map id Server.PROJECTS_DATA) /\
  Server.get_project Server.PROJECTS_DATA "" "PRJ004"
    = (Server.body_project true "" Server.PRJ004, 200).
Proof.
  assert (Hnd : NoDup (map id Server.PROJECTS_DATA)).
  { simpl. repeat constructor; simpl; intuition discriminate. }
  split; [exact Hnd|].
  apply (listed_project_is_found Server.PROJECTS_DATA "" Server.PRJ004 Hnd).
  simpl. tauto.
Defined.

(** With a repeated id the later project is listed but never returned. *)
Lemma shadowed_project_not_found :
  let twin := with_variance_days 0 Server.PRJ001 in
  In twin (Server.projects_data (fst (Server.get_projects [Server.PRJ001; twin] ""))) /\
  twin <> Server.PRJ001 /\
  Server.get_project [Server.PRJ001; twin] "" (id twin)
    = (Server.body_project true "" Server.PRJ001, 200).
Proof.
  repeat split; [simpl; tauto | discriminate].
Qed.

(** ** The project health analyzer *)

Lemma analyze_zero_total (project : Project) :
  total (budget project) = 0 ->
  Analyzer.analyze_project_health project = inl Py.ZeroDivisionError.
Proof.
  intros H. unfold Analyzer.analyze_project_health, Analyzer._assess_budget.
  rewrite H. reflexivity.
Qed.

Lemma analyze_nonzero_total (project : Project) :
  total (budget project) <> 0 ->
  exists a, Analyzer.analyze_project_health project = inr a /\
            Analyzer.Analysis.project_id a = id project.
Proof.
  intros H. unfold Analyzer.analyze_project_health, Analyzer._assess_budget, Server.bind.
  rewrite !(truediv_nonzero _ _ H).
  destruct (Py.Qltb _ _); [|destruct (Py.Qltb _ _)];
    eexists; split; reflexivity.
Qed.

(** X7.  [analyze_project_health] raises [ZeroDivisionError] exactly when
    the project's total budget is zero (a negative total does not raise);
    otherwise the analysis carries the project's id, name, status and score
    and the narratives of the three assessors.  Its utilization is the
    double quotient of spent by total, multiplied by 100: the figure a
    WARNING budget narrative shows, and a number within 0 and 100 when the
    spent amount is within 0 and the total. *)
Theorem analyze_project_health_outcome (project : Project) :
  (total (budget project) = 0 /\
   Analyzer.analyze_project_health project = inl Py.ZeroDivisionError)
  \/
  (total (budget project) <> 0 /\
   exists a,
     Analyzer.analyze_project_health project = inr a /\
     Analyzer.Analysis.project_id a = id project /\
     Analyzer.Analysis.project_name a = name project /\
     Analyzer.Analysis.overall_status a = overall_status (health project) /\
     Analyzer.Analysis.health_score a = health_score (health project) /\
     Analyzer.ScopeDim.assessment (Analyzer.Analysis.scope (Analyzer.Analysis.dimensions a))
       = Analyzer._assess_scope (scope_variance_percentage (scope project))
           (scope_changes (scope project)) /\
     Analyzer._assess_budget (variance_percentage (budget project))
         (spent (budget project)) (total (budget project))
       = inr (Analyzer.BudgetDim.assessment
                (Analyzer.Analysis.budget (Analyzer.Analysis.dimensions a))) /\
     Analyzer.TimelineDim.assessment
         (Analyzer.Analysis.timeline (Analyzer.Analysis.dimensions a))
       = Analyzer._assess_timeline (Py.Int (variance_days (schedule project)))
           (Py.Int (percent_complete (schedule project))) /\
     let utilization :=
       Analyzer.BudgetDim.utilization
         (Analyzer.BudgetDim.metrics
            (Analyzer.Analysis.budget (Analyzer.Analysis.dimensions a))) in
     utilization
       = Py.fmul (Py.fl (inject_Z (spent (budget project))
                         / inject_Z (total (budget project)))) 100 /\
     ((-5 <= variance_percentage (budget project))%Q /\
      (variance_percentage (budget project) < 0)%Q ->
      Analyzer.BudgetDim.assessment
        (Analyzer.Analysis.budget (Analyzer.Analysis.dimensions a))
        = "WARNING: Project trending "
            ++ Py.fmt_1f (Qabs (variance_percentage (budget project)))
            ++ "% over budget at " ++ Py.fmt_1f utilization ++ "% utilization.") /\
     (0 <= spent (budget project) <= total (budget project) ->
      (0 <= utilization <= 100)%Q)).
Proof.
  destruct (Z.eq_dec (total (budget project)) 0) as [H | H].
  - left. split; [exact H | now apply analyze_zero_total].
  - right. split; [exact H|].
    unfold Analyzer.analyze_project_health, Analyzer._assess_budget, Server.bind.
    rewrite !(truediv_nonzero _ _ H).
    destruct (Py.Qltb _ (-5)) eqn:E5; [|destruct (Py.Qltb _ 0) eqn:E0]; split_Q;
      (eexists; split; [reflexivity|];
       do 7 (split; [reflexivity|]);
       cbv zeta;
       cbn [Analyzer.Analysis.dimensions Analyzer.Analysis.budget
            Analyzer.BudgetDim.metrics Analyzer.BudgetDim.utilization
            Analyzer.BudgetDim.assessment];
       split; [reflexivity|]; split;
       [ intros [Hlo Hhi]; first [reflexivity | exfalso; lra]
       | intros Hs; apply utilization_bounds; lia ]).
Qed.

(** PRJ001: 625000 spent of 750000, the double 83.33333333333334. *)
Lemma analyze_project_health_sample :
  exists a,
    Analyzer.analyze_project_health Server.PRJ001 = inr a /\
    Py.repr_float
      (Analyzer.BudgetDim.utilization
         (Analyzer.BudgetDim.metrics
            (Analyzer.Analysis.budget (Analyzer.Analysis.dimensions a))))
      = "83.33333333333334" /\
    Analyzer.BudgetDim.assessment
      (Analyzer.Analysis.budget (Analyzer.Analysis.dimensions a))
      = "WARNING: Project trending 4.0% over budget at 83.3% utilization.".
Proof. eexists. split; [reflexivity | split; vm_compute; reflexivity]. Qed.

(** ** The insights *)

(** The loop over projects none of which has a zero total. *)
Lemma analyze_each_ok (todo : list Project) :
  (forall p, In p todo -> total (budget p) <> 0) ->
  forall out acc, exists analyses,
    Analyzer.analyze_each todo out acc
      = ((out ++ map progress_line todo)%list, inr (acc ++ analyses)%list) /\
    map Analyzer.Analysis.project_id analyses = map id todo /\
    Forall2 (fun p a => Analyzer.analyze_project_health p = inr a) todo analyses.
Proof.
  induction todo as [|x l IH]; intros Hnz out acc.
  - exists []. simpl. rewrite !app_nil_r. repeat split. constructor.
  - destruct (analyze_nonzero_total x (Hnz x (or_introl eq_refl))) as [a [Ha Hid]].
    destruct (IH (fun p Hp => Hnz p (or_intror Hp))
                (out ++ [progress_line x])%list (acc ++ [a])%list)
      as [rest [Hrest [Hids Hall]]].
    exists (a :: rest). cbn [Analyzer.analyze_each]. rewrite Ha. cbv zeta.
    change ("  ✓ " ++ name x ++ ": " ++ overall_status (health x))
      with (progress_line x).
    rewrite Hrest, <- !app_assoc.
    split; [reflexivity|]. split; [|constructor; assumption].
    cbn [map]. now rewrite Hid, Hids.
Qed.

(** The loop stops at the first project with a zero total. *)
Lemma analyze_each_stops (before after : list Project) (bad : Project) :
  (forall p, In p before -> total (budget p) <> 0) ->
  total (budget bad) = 0 ->
  forall out acc,
    Analyzer.analyze_each (before ++ bad :: after) out acc
      = ((out ++ map progress_line before)%list, inl Py.ZeroDivisionError).
Proof.
  intros Hnz Hbad.
  induction before as [|x l IH]; intros out acc.
  - cbn [Analyzer.analyze_each app map].
    rewrite (analyze_zero_total bad Hbad), app_nil_r. reflexivity.
  - destruct (analyze_nonzero_total x (Hnz x (or_introl eq_refl))) as [a [Ha _]].
    cbn [Analyzer.analyze_each app]. rewrite Ha. cbv zeta.
    change ("  ✓ " ++ name x ++ ": " ++ overall_status (health x))
      with (progress_line x).
    rewrite (IH (fun p Hp => Hnz p (or_intror Hp))), <- app_assoc. reflexivity.
Qed.

(** The insights of a run that returned. *)
Lemma generate_insights_result (self : Analyzer.FetchedAnalyzer)
    (out : list string) (ins : Analyzer.Insights.t) :
  Analyzer.generate_insights self = (out, inr ins) ->
  Analyzer.Insights.key_concerns ins = Analyzer.key_concerns (Analyzer.fetched self) /\
  Analyzer.Insights.recommendations ins = Analyzer.recommendations (Analyzer.fetched self) /\
  Analyzer.Insights.timeline_analysis ins = Analyzer.timeline_analysis (Analyzer.fetched self) /\
  Analyzer.Insights.scope_analysis ins = Analyzer._analyze_portfolio_scope (Analyzer.fetched self) /\
  Analyzer.Insights.budget_analysis ins = Analyzer._analyze_portfolio_budget self /\
  Analyzer.Insights.executive_summary ins = Analyzer._generate_executive_summary self.
Proof.
  unfold Analyzer.generate_insights.
  destruct (Analyzer.analyze_each _ _ _) as [o [e | pa]]; [discriminate|].
  intros H. injection H as _ Hi. subst ins. repeat split.
Qed.

(** X8.  When no project has a zero total budget, [generate_insights]
    returns: it prints its banner, one progress line for each project in
    order and two closing lines, and its result holds one analysis for each
    project, in the order of the projects, beside the key concerns, the
    recommendations and the timeline analysis of the collection. *)
Theorem generate_insights_returns (self : Analyzer.FetchedAnalyzer)
    (Hbudgets : forall p, In p (Analyzer.projects (Analyzer.fetched self)) -> total (budget p) <> 0) :
  exists ins,
    Analyzer.generate_insights self
      = ((insights_banner ++ map progress_line (Analyzer.projects (Analyzer.fetched self))
          ++ [Py.nl ++ "🧠 Generating executive insights..."; "✅ Analysis complete"]%string)%list,
         inr ins) /\
    Forall2 (fun p a => Analyzer.analyze_project_health p = inr a)
      (Analyzer.projects (Analyzer.fetched self)) (Analyzer.Insights.project_analyses ins) /\
    map Analyzer.Analysis.project_id (Analyzer.Insights.project_analyses ins)
      = map id (Analyzer.projects (Analyzer.fetched self)) /\
    Analyzer.Insights.key_concerns ins = Analyzer.key_concerns (Analyzer.fetched self) /\
    Analyzer.Insights.recommendations ins = Analyzer.recommendations (Analyzer.fetched self) /\
    Analyzer.Insights.timeline_analysis ins = Analyzer.timeline_analysis (Analyzer.fetched self).
Proof.
  destruct (analyze_each_ok (Analyzer.projects (Analyzer.fetched self)) Hbudgets insights_banner [])
    as [analyses [Hrun [Hids Hall]]].
  unfold Analyzer.generate_insights. fold insights_banner. rewrite Hrun.
  eexists. split; [rewrite <- !app_assoc; reflexivity|].
  simpl. repeat split; assumption.
Qed.

(** The five sample projects. *)
Lemma generate_insights_returns_witness :
  exists ins,
    snd (Analyzer.generate_insights (analyzer_over Server.PROJECTS_DATA)) = inr ins /\
    map Analyzer.Analysis.project_id (Analyzer.Insights.project_analyses ins)
      = ["PRJ001"; "PRJ002"; "PRJ003"; "PRJ004"; "PRJ005"].
Proof.
  destruct (generate_insights_returns (analyzer_over Server.PROJECTS_DATA))
    as [ins [Hrun [_ [Hids _]]]].
  - intros p Hp. simpl in Hp.
    destruct Hp as [H | [H | [H | [H | [H | []]]]]]; subst p; discriminate.
  - exists ins. rewrite Hrun. split; [reflexivity | exact Hids].
Defined.

(** X9.  When some project has a zero total budget, [generate_insights]
    raises [ZeroDivisionError] at the first such project: the progress lines
    printed are those of the projects before it, and no insights are
    returned. *)
Theorem generate_insights_raises (self : Analyzer.FetchedAnalyzer)
    (before after : list Project) (bad : Project)
    (Hsplit : Analyzer.projects (Analyzer.fetched self) = (before ++ bad :: after)%list)
    (Hbefore : forall p, In p before -> total (budget p) <> 0)
    (Hbad : total (budget bad) = 0) :
  Analyzer.generate_insights self
    = ((insights_banner ++ map progress_line before)%list, inl Py.ZeroDivisionError).
Proof.
  unfold Analyzer.generate_insights. fold insights_banner.
  rewrite Hsplit, (analyze_each_stops before after bad Hbefore Hbad). reflexivity.
Qed.

(** PRJ002 with a total budget of zero, between PRJ001 and PRJ003. *)
Lemma generate_insights_raises_witness :
  Analyzer.generate_insights
    (analyzer_over [Server.PRJ001; with_budget_total 0 Server.PRJ002; Server.PRJ003])
  = ((insights_banner ++ ["  ✓ Digital Transformation Initiative: At Risk"])%list,
     inl Py.ZeroDivisionError).
Proof.
  apply (generate_insights_raises
           (analyzer_over [Server.PRJ001; with_budget_total 0 Server.PRJ002; Server.PRJ003])
           [Server.PRJ001] [Server.PRJ003] (with_budget_total 0 Server.PRJ002)).
  - reflexivity.
  - intros p [H | []]. subst p. discriminate.
  - reflexivity.
Defined.

(** [print_summary] calls [print] three times for each concern and for
    each of the first three recommendations, and seven times more. *)
Lemma flat_map_length3 {A : Type} (f : A -> list string) (l : list A) :
  (forall a, List.length (f a) = 3%nat) ->
  List.length (flat_map f l) = (3 * List.length l)%nat.
Proof.
  intros H. induction l as [|x l IH]; [reflexivity|].
  simpl flat_map. rewrite length_app, H, IH. simpl List.length. lia.
Qed.

Lemma recommendations_at_most_three (self : Analyzer.ClarityPPMAnalyzer) :
  (List.length (Analyzer.recommendations self) <= 3)%nat.
Proof.
  rewrite <- (length_map Analyzer.priority), recommendations_priorities.
  destruct (existsb _ _); destruct (_ >? 1); destruct (_ >? 2); simpl; lia.
Qed.

(** X10.  [print_summary] applied to the insights [generate_insights]
    returned shows every recommendation: the list never has more than three
    entries, so the slice [[:3]] drops none, and [print] is called seven
    times and three times more for each concern and each recommendation. *)
Theorem print_summary_shows_all (self : Analyzer.FetchedAnalyzer)
    (out : list string) (ins : Analyzer.Insights.t)
    (Hrun : Analyzer.generate_insights self = (out, inr ins)) :
  firstn 3 (Analyzer.Insights.recommendations ins) = Analyzer.Insights.recommendations ins /\
  (forall r, In r (Analyzer.Insights.recommendations ins) ->
     In (Py.nl ++ "  Priority " ++ Py.str (Analyzer.priority r) ++ ": "
           ++ Analyzer.recommendation r)
        (Analyzer.print_summary ins)) /\
  List.length (Analyzer.print_summary ins)
    = (7 + 3 * List.length (Analyzer.Insights.key_concerns ins)
       + 3 * List.length (Analyzer.Insights.recommendations ins))%nat.
Proof.
  destruct (generate_insights_result self out ins Hrun) as [_ [Hrec _]].
  assert (Hall : firstn 3 (Analyzer.Insights.recommendations ins)
                 = Analyzer.Insights.recommendations ins).
  { apply firstn_all2. rewrite Hrec. apply recommendations_at_most_three. }
  split; [exact Hall|].
  unfold Analyzer.print_summary. cbv zeta. rewrite Hall.
  split.
  - intros r Hr. apply in_or_app. right. apply in_or_app. right.
    apply in_or_app. right. apply in_or_app. left.
    apply in_flat_map. exists r. split; [exact Hr | left; reflexivity].
  - rewrite !length_app, !flat_map_length3 by reflexivity.
    simpl List.length. lia.
Qed.

(** The sample data: three concerns and three recommendations, 25 calls
    of [print]. *)
Lemma print_summary_shows_all_witness :
  exists ins,
    snd (Analyzer.generate_insights (analyzer_over Server.PROJECTS_DATA)) = inr ins /\
    List.length (Analyzer.Insights.recommendations ins) = 3%nat /\
    List.length (Analyzer.print_summary ins) = 25%nat.
Proof.
  destruct (Analyzer.generate_insights (analyzer_over Server.PROJECTS_DATA))
    as [out [e | ins]] eqn:Hrun; [vm_compute in Hrun; discriminate|].
  exists ins. split; [reflexivity|].
  destruct (print_summary_shows_all _ out ins Hrun) as [_ [_ Hlen]].
  assert (Hins : snd (Analyzer.generate_insights (analyzer_over Server.PROJECTS_DATA))
                 = inr ins) by (rewrite Hrun; reflexivity).
  vm_compute in Hins. injection Hins as Hins. subst ins.
  split; [reflexivity | rewrite Hlen; reflexivity].
Defined.

(** ** Concerns against recommendations *)

Lemma has_concern_high_at_risk (self : Analyzer.ClarityPPMAnalyzer) :
  existsb Analyzer.is_at_risk (Analyzer.projects self) = true ->
  has_concern "High" (Analyzer.key_concerns self).
Proof.
  intros H. rewrite key_concerns_parts, H. unfold has_concern.
  eexists. split;
    [apply in_or_app; right; apply in_or_app; left; left; reflexivity | reflexivity].
Qed.

Lemma count_positive_existsb {A : Type} (f : A -> bool) (l : list A) :
  0 < Py.len (filter f l) -> existsb f l = true.
Proof.
  intros H. rewrite <- truthy_filter.
  destruct (filter f l); [unfold Py.len in H; simpl in H; lia | reflexivity].
Qed.

(** X11.  The priority 1 recommendation and the Critical concern come
    together: either both are present or neither.  A priority 2
    recommendation comes with a High concern, but not the other way round:
    one At Risk project alone gives the concern without the
    recommendation. *)
Theorem recommendations_follow_concerns (self : Analyzer.ClarityPPMAnalyzer) :
  (emitted 1 (Analyzer.recommendations self)
   <-> has_concern "Critical" (Analyzer.key_concerns self)) /\
  (emitted 2 (Analyzer.recommendations self)
   -> has_concern "High" (Analyzer.key_concerns self)) /\
  (let one := {| Analyzer.projects := [Server.PRJ005];
                 Analyzer.portfolio_health := Analyzer.portfolio_health self |} in
   has_concern "High" (Analyzer.key_concerns one) /\
   ~ emitted 2 (Analyzer.recommendations one)).
Proof.
  split; [|split].
  - rewrite has_concern_critical_iff, <- (existsb_status "Critical"),
      emitted_priority, recommendations_priorities.
    change (fun p : Project => (overall_status (health p) =? "Critical")%string)
      with Analyzer.is_critical.
    destruct (existsb Analyzer.is_critical (Analyzer.projects self));
      destruct (_ >? 1); destruct (_ >? 2); simpl; intuition congruence.
  - rewrite emitted_priority, recommendations_priorities. intros H.
    apply has_concern_high_at_risk.
    destruct (count_status "At Risk" (Analyzer.projects self) >? 1) eqn:E.
    + apply count_positive_existsb. apply Z.gtb_lt in E.
      unfold count_status in E. unfold Analyzer.is_at_risk. lia.
    + exfalso. destruct (existsb _ _); destruct (_ >? 2); simpl in H;
        intuition congruence.
  - cbv zeta. split.
    + apply has_concern_high_at_risk. reflexivity.
    + rewrite emitted_priority, recommendations_priorities.
      cbn [Analyzer.projects Analyzer.portfolio_health].
      destruct (_ >? 2); simpl; intuition congruence.
Qed.

(** ** Fetching *)

(** X12.  [fetch_data] returns [True] exactly when the server holds at
    least one project and a non-zero total budget; the three fields then
    hold the server's list and the data of its two aggregates.  Otherwise
    the summary request fails and [fetch_data] returns [False] with the
    project list already replaced and the two aggregates left as they
    were: the health request is never the one that fails. *)
Theorem fetch_data_fields_outcome (DATA : list Project) (now : string)
    (self : Analyzer.Fields) :
  let total_budget := Py.sumZ (map (fun p => total (budget p)) DATA) in
  (DATA <> [] /\ total_budget <> 0 /\
   exists summary health,
     Server.get_portfolio_summary DATA now = inr (summary, 200) /\
     Server.get_portfolio_health DATA now = inr (health, 200) /\
     Analyzer.fetch_data_fields DATA now self
       = (true, {| Analyzer.self_projects := DATA;
                   Analyzer.self_portfolio_summary := Some (Server.summary_data summary);
                   Analyzer.self_portfolio_health := Some (Server.health_data health) |}) /\
     Analyzer.fetch_data DATA now
       = Some {| Analyzer.projects := DATA;
                 Analyzer.portfolio_health := Server.health_data health |})
  \/
  ((DATA = [] \/ total_budget = 0) /\
   Server.get_portfolio_summary DATA now = inl Py.ZeroDivisionError /\
   Analyzer.fetch_data_fields DATA now self
     = (false, {| Analyzer.self_projects := DATA;
                  Analyzer.self_portfolio_summary := Analyzer.self_portfolio_summary self;
                  Analyzer.self_portfolio_health := Analyzer.self_portfolio_health self |})).
Proof.
  intros total_budget.
  unfold Analyzer.fetch_data_fields, Analyzer.fetch_data.
  unfold Server.get_portfolio_summary, Server.get_portfolio_health, Server.bind.
  fold total_budget.
  destruct (Z.eq_dec (Py.len DATA) 0) as [Hlen | Hlen].
  - right. split; [left; now apply len_zero_iff|]. rewrite Hlen. split; reflexivity.
  - rewrite !(truediv_nonzero _ _ Hlen).
    destruct (Z.eq_dec total_budget 0) as [Hb | Hb].
    + right. split; [right; exact Hb|]. rewrite Hb. split; reflexivity.
    + left. rewrite (truediv_nonzero _ _ Hb).
      split; [intro E; apply Hlen; now apply len_zero_iff|].
      split; [exact Hb|].
      do 2 eexists. repeat split.
Qed.

(** A fetch that returned [True] filled the fields from the two routes. *)
Lemma fetch_true (DATA : list Project) (now : string) (self0 self1 : Analyzer.Fields)
    (self : Analyzer.FetchedAnalyzer) :
  Analyzer.fetch_data_fields DATA now self0 = (true, self1) ->
  Analyzer.filled self1 = Some self ->
  exists summary health cs ch,
    Server.get_portfolio_summary DATA now = inr (summary, cs) /\
    Server.get_portfolio_health DATA now = inr (health, ch) /\
    Analyzer.projects (Analyzer.fetched self) = DATA /\
    Analyzer.portfolio_summary self = Server.summary_data summary /\
    Analyzer.portfolio_health (Analyzer.fetched self) = Server.health_data health.
Proof.
  unfold Analyzer.fetch_data_fields.
  destruct (Server.get_portfolio_summary DATA now) as [e | [summary cs]]; [discriminate|].
  destruct (Server.get_portfolio_health DATA now) as [e | [health ch]]; [discriminate|].
  intros H. injection H as H. subst self1.
  unfold Analyzer.filled. cbn [Analyzer.self_portfolio_summary Analyzer.self_portfolio_health
    Analyzer.self_projects].
  intros H. injection H as H. subst self.
  exists summary, health, cs, ch. repeat split.
Qed.

(** X13.  After a fetch that returned [True], the budget analysis counts
    the same over-budget projects as the health aggregate and reports the
    same total variance; so it recommends immediate cost control exactly
    when the priority 3 recommendation is emitted. *)
Theorem budget_analysis_agrees (DATA : list Project) (now : string)
    (self0 self1 : Analyzer.Fields) (self : Analyzer.FetchedAnalyzer)
    (Hfetch : Analyzer.fetch_data_fields DATA now self0 = (true, self1))
    (Hfilled : Analyzer.filled self1 = Some self) :
  let analysis := Analyzer._analyze_portfolio_budget self in
  let aggregate := Server.Portfolio.budget (Analyzer.portfolio_health (Analyzer.fetched self)) in
  Analyzer.BudgetAnalysis.projects_over_budget analysis
    = Server.Portfolio.projects_over_budget aggregate /\
  Analyzer.BudgetAnalysis.total_variance analysis
    = Server.Portfolio.total_variance aggregate /\
  Z.of_nat (List.length (Analyzer.BudgetAnalysis.projects_with_issues analysis))
    = Server.Portfolio.projects_over_budget aggregate /\
  (Analyzer.BudgetAnalysis.recommendation analysis = "Immediate cost control measures needed"
   <-> emitted 3 (Analyzer.recommendations (Analyzer.fetched self))).
Proof.
  destruct (fetch_true _ _ _ _ _ Hfetch Hfilled)
    as [summary [hb [cs [ch [_ [Hh [Hp [_ Hph]]]]]]]].
  destruct (health_fields _ _ _ _ Hh) as [_ [_ [Ho [Ht _]]]].
  cbv zeta in *. rewrite Hph, Ho, Ht.
  unfold Analyzer._analyze_portfolio_budget.
  cbn [Analyzer.BudgetAnalysis.projects_over_budget Analyzer.BudgetAnalysis.total_variance
       Analyzer.BudgetAnalysis.projects_with_issues Analyzer.BudgetAnalysis.recommendation].
  rewrite Hp. split; [reflexivity|]. split; [reflexivity|].
  split; [rewrite length_map; reflexivity|].
  rewrite emitted_priority, recommendations_priorities, Hph, Ho.
  destruct (Py.len (filter (fun p => variance (budget p) <? 0) DATA) >? 2);
    destruct (existsb _ _); destruct (_ >? 1); simpl;
    split; intros H; try discriminate; intuition congruence.
Qed.

(** The sample data: three projects over budget, cost control recommended. *)
Lemma budget_analysis_agrees_witness :
  exists self1 self,
    Analyzer.fetch_data_fields Server.PROJECTS_DATA "" Analyzer.__init__ = (true, self1) /\
    Analyzer.filled self1 = Some self /\
    Analyzer.BudgetAnalysis.projects_over_budget (Analyzer._analyze_portfolio_budget self) = 3 /\
    Server.Portfolio.projects_over_budget
      (Server.Portfolio.budget (Analyzer.portfolio_health (Analyzer.fetched self))) = 3.
Proof.
  do 2 eexists. split; [reflexivity|]. split; [reflexivity|].
  split; [|reflexivity].
  rewrite (proj1 (budget_analysis_agrees Server.PROJECTS_DATA "" Analyzer.__init__
                    _ _ eq_refl eq_refl)).
  reflexivity.
Defined.

(** ** The scope analysis and the assessors against the aggregates *)

(** X14.  After a fetch that returned [True], the scope analysis lists the
    projects with a scope variance above 10, the aggregate counts those
    above 5: the list is never longer than the count, and it is shorter
    exactly when some project has a variance above 5 and at most 10. *)
Theorem scope_analysis_cutoffs (DATA : list Project) (now : string)
    (self0 self1 : Analyzer.Fields) (self : Analyzer.FetchedAnalyzer)
    (Hfetch : Analyzer.fetch_data_fields DATA now self0 = (true, self1))
    (Hfilled : Analyzer.filled self1 = Some self) :
  let analysis := Analyzer._analyze_portfolio_scope (Analyzer.fetched self) in
  let aggregate := Server.Portfolio.scope (Analyzer.portfolio_health (Analyzer.fetched self)) in
  let listed := Py.len (Analyzer.ScopeAnalysis.projects_with_issues analysis) in
  listed <= Server.Portfolio.projects_with_variance aggregate /\
  (listed <> Server.Portfolio.projects_with_variance aggregate <->
   exists p, In p DATA /\
     (5 < scope_variance_percentage (scope p))%Q /\
     (scope_variance_percentage (scope p) <= 10)%Q) /\
  Analyzer.ScopeAnalysis.average_variance analysis
    = Server.Portfolio.average_variance aggregate /\
  Analyzer.ScopeAnalysis.total_scope_changes analysis
    = Py.sumZ (map (fun p => scope_changes (scope p)) DATA).
Proof.
  destruct (fetch_true _ _ _ _ _ Hfetch Hfilled)
    as [summary [hb [cs [ch [_ [Hh [Hp [_ Hph]]]]]]]].
  destruct (health_fields _ _ _ _ Hh) as [_ [Hs _]].
  cbv zeta in *. rewrite Hph, Hs.
  unfold Analyzer._analyze_portfolio_scope.
  cbn [Analyzer.ScopeAnalysis.projects_with_issues Analyzer.ScopeAnalysis.average_variance
       Analyzer.ScopeAnalysis.total_scope_changes].
  rewrite Hp, Hph.
  replace (Py.len (map name
             (filter (fun p => Py.Qgtb (scope_variance_percentage (scope p)) 10) DATA)))
    with (Py.len (filter (fun p => Py.Qgtb (scope_variance_percentage (scope p)) 10) DATA))
    by (unfold Py.len; now rewrite length_map).
  destruct (len_filter_le (fun p => Py.Qgtb (scope_variance_percentage (scope p)) 5)
              (fun p => Py.Qgtb (scope_variance_percentage (scope p)) 10) DATA)
    as [Hle Hne].
  { intros a Ha. apply Qgtb_gt in Ha. apply Qgtb_gt. lra. }
  split; [exact Hle|]. split; [|split; reflexivity].
  rewrite Hne. split; intros [p [Hin [H5 H10]]]; exists p; (split; [exact Hin|]).
  - apply Qgtb_gt in H5. apply Qgtb_le in H10. split; assumption.
  - split; [now apply Qgtb_gt | now apply Qgtb_le].
Qed.

(** The sample data: PRJ003 and PRJ005 are listed, PRJ001 (6.7) is counted
    by the aggregate only. *)
Lemma scope_analysis_cutoffs_witness :
  exists self1 self,
    Analyzer.fetch_data_fields Server.PROJECTS_DATA "" Analyzer.__init__ = (true, self1) /\
    Analyzer.filled self1 = Some self /\
    Py.len (Analyzer.ScopeAnalysis.projects_with_issues
              (Analyzer._analyze_portfolio_scope (Analyzer.fetched self))) = 2 /\
    Server.Portfolio.projects_with_variance
      (Server.Portfolio.scope (Analyzer.portfolio_health (Analyzer.fetched self))) = 3 /\
    exists p, In p Server.PROJECTS_DATA /\
      (5 < scope_variance_percentage (scope p))%Q /\
      (scope_variance_percentage (scope p) <= 10)%Q.
Proof.
  do 2 eexists. split; [reflexivity|]. split; [reflexivity|].
  split; [reflexivity|]. split; [reflexivity|].
  apply (proj1 (proj2 (scope_analysis_cutoffs Server.PROJECTS_DATA "" Analyzer.__init__
                         _ _ eq_refl eq_refl))).
  discriminate.
Defined.

Lemma filter_ext_len {A : Type} (f g : A -> bool) (l : list A) :
  (forall a, f a = g a) -> Py.len (filter f l) = Py.len (filter g l).
Proof.
  intros H. f_equal. apply filter_ext. exact H.
Qed.

Lemma scope_tier_not_healthy (v : Q) (c : Z) :
  Py.Qgtb v 5 = negb (tier (Analyzer._assess_scope v c) =? "HEALTHY")%string.
Proof.
  destruct (assess_scope_cases v c) as [[H T] | [[H [H' T]] | [H T]]]; rewrite T; simpl.
  - apply Qgtb_gt. lra.
  - apply Qgtb_gt. exact H.
  - apply Qgtb_le. exact H.
Qed.

Lemma timeline_tier_behind (d c : Z) :
  (d <? -5) = ((tier (Analyzer._assess_timeline (Py.Int d) (Py.Int c)) =? "WARNING")%string
               || (tier (Analyzer._assess_timeline (Py.Int d) (Py.Int c)) =? "CRITICAL")%string).
Proof.
  destruct (assess_timeline_cases (Py.Int d) (Py.Int c))
    as [[H T] | [[H [H' T]] | [[H T] | [H [H' T]]]]]; rewrite T;
    cbn [String.eqb Ascii.eqb Bool.eqb orb];
    unfold Qlt, Qle in *; cbn [Py.value Qnum Qden inject_Z] in *;
    first [apply Z.ltb_lt; lia | apply Z.ltb_ge; lia].
Qed.

(** X15.  The portfolio counts are counts of assessments: a health
    aggregate that was computed counts under [projects_with_variance] the
    projects whose scope assessment is not HEALTHY, and the timeline
    analysis counts under [projects_behind] the projects whose timeline
    assessment is WARNING or CRITICAL. *)
Theorem counts_are_assessment_counts (DATA : list Project) (now : string)
    (body : Server.health_body) (code : Z) (ph : Server.Portfolio.Health)
    (Hhealth : Server.get_portfolio_health DATA now = inr (body, code)) :
  Server.Portfolio.projects_with_variance
      (Server.Portfolio.scope (Server.health_data body))
    = Py.len (filter (fun p =>
        negb (tier (Analyzer._assess_scope (scope_variance_percentage (scope p))
                      (scope_changes (scope p))) =? "HEALTHY")%string) DATA) /\
  Analyzer.projects_behind
      (Analyzer._analyze_portfolio_timeline
         {| Analyzer.projects := DATA; Analyzer.portfolio_health := ph |})
    = Py.len (filter (fun p =>
        let narrative := Analyzer._assess_timeline (Py.Int (variance_days (schedule p)))
                           (Py.Int (percent_complete (schedule p))) in
        (tier narrative =? "WARNING")%string || (tier narrative =? "CRITICAL")%string)
        DATA).
Proof.
  destruct (health_fields _ _ _ _ Hhealth) as [_ [Hs _]].
  cbv zeta in Hs. rewrite Hs. split.
  - apply filter_ext_len. intros p. apply scope_tier_not_healthy.
  - unfold Analyzer._analyze_portfolio_timeline.
    cbn [Analyzer.projects_behind Analyzer.projects].
    apply filter_ext_len. intros p. apply timeline_tier_behind.
Qed.

(** The sample data: three scope assessments are not HEALTHY, three
    timeline assessments are WARNING or CRITICAL. *)
Lemma counts_are_assessment_counts_witness :
  exists body,
    Server.get_portfolio_health Server.PROJECTS_DATA "" = inr (body, 200) /\
    Server.Portfolio.projects_with_variance
      (Server.Portfolio.scope (Server.health_data body)) = 3 /\
    Analyzer.projects_behind
      (Analyzer._analyze_portfolio_timeline
         {| Analyzer.projects := Server.PROJECTS_DATA;
            Analyzer.portfolio_health := sample_health |}) = 3.
Proof.
  eexists. split; [reflexivity|].
  destruct (counts_are_assessment_counts Server.PROJECTS_DATA "" _ 200 sample_health eq_refl)
    as [H1 H2].
  split; [rewrite H1 | rewrite H2]; reflexivity.
Defined.

(** X16.  After a fetch that returned [True], the status counts of the
    summary are the sizes of the lists the concerns and recommendations are
    built from: the Critical concern is present exactly when the summary
    counts a critical project, and the priority 2 recommendation exactly
    when it counts more than one project at risk. *)
Theorem summary_counts_drive_concerns (DATA : list Project) (now : string)
    (self0 self1 : Analyzer.Fields) (self : Analyzer.FetchedAnalyzer)
    (Hfetch : Analyzer.fetch_data_fields DATA now self0 = (true, self1))
    (Hfilled : Analyzer.filled self1 = Some self) :
  let distribution :=
    Server.Summary.status_distribution (Analyzer.portfolio_summary self) in
  Server.Summary.critical distribution
    = Py.len (Analyzer.critical_projects (Analyzer.fetched self)) /\
  Server.Summary.at_risk distribution
    = Py.len (Analyzer.at_risk_projects (Analyzer.fetched self)) /\
  (has_concern "Critical" (Analyzer.key_concerns (Analyzer.fetched self))
   <-> 1 <= Server.Summary.critical distribution) /\
  (emitted 2 (Analyzer.recommendations (Analyzer.fetched self))
   <-> 1 < Server.Summary.at_risk distribution).
Proof.
  destruct (fetch_true _ _ _ _ _ Hfetch Hfilled)
    as [summary [hb [cs [ch [Hs [_ [Hp [Hps _]]]]]]]].
  destruct (summary_fields _ _ _ _ Hs) as [_ [_ [_ [_ [_ [_ [Hr Hc]]]]]]].
  cbv zeta in *. rewrite Hps, Hr, Hc.
  unfold Analyzer.critical_projects, Analyzer.at_risk_projects. rewrite Hp.
  split; [reflexivity|]. split; [reflexivity|]. split.
  - rewrite has_concern_critical_iff, <- (existsb_status "Critical"), Hp.
    unfold count_status.
    assert (B := len_filter_bounds
      (fun p => (overall_status (health p) =? "Critical")%string) DATA).
    split.
    + intros H. rewrite <- truthy_filter in H.
      destruct (filter _ DATA); [discriminate | rewrite len_cons; unfold Py.len; lia].
    + intros H. apply count_positive_existsb. lia.
  - rewrite emitted_priority, recommendations_priorities, Hp.
    destruct (count_status "At Risk" DATA >? 1) eqn:E.
    + apply Z.gtb_lt in E. split; [intros _; lia|]. intros _.
      destruct (existsb _ _); destruct (_ >? 2); simpl; tauto.
    + assert (E' : ~ 1 < count_status "At Risk" DATA)
        by (intro X; apply Z.gtb_lt in X; congruence).
      split; [|intro X; contradiction].
      destruct (existsb _ _); destruct (_ >? 2); simpl; intuition congruence.
Qed.

(** The sample data: one critical project, two at risk. *)
Lemma summary_counts_drive_concerns_witness :
  exists self1 self,
    Analyzer.fetch_data_fields Server.PROJECTS_DATA "" Analyzer.__init__ = (true, self1) /\
    Analyzer.filled self1 = Some self /\
    Py.len (Analyzer.critical_projects (Analyzer.fetched self)) = 1 /\
    Py.len (Analyzer.at_risk_projects (Analyzer.fetched self)) = 2.
Proof.
  do 2 eexists. split; [reflexivity|]. split; [reflexivity|].
  destruct (summary_counts_drive_concerns Server.PROJECTS_DATA "" Analyzer.__init__
              _ _ eq_refl eq_refl) as [H1 [H2 _]].
  split; [rewrite <- H1 | rewrite <- H2]; reflexivity.
Defined.
